(** * WorkDocStyler: the style resolution and line classification engine

    A shallow embedding of [src/main.py]: the colour resolver [_rgb], the
    paragraph styler [_apply_paragraph_style], the line classifier
    [_detect_and_style_line] and the build loop of [format_doc], followed
    by the properties of the specification that concern them.

    Conventions.
    - A Python [str] is the list of its Unicode code points: [len], slices
      and [startswith] of the source count code points.
    - Dictionary keys and style names are only ever compared, never sliced;
      they are held as [string].
    - A Python exception is the [Raise] outcome of the [result] monad; the
      objects a raising call had mutated so far are dropped with it, as
      nothing in the source observes them afterwards.
    - python-docx is outside the repository: its [Document], [Paragraph]
      and [Run] objects are records that hold what the source assigns, an
      attribute never assigned being [None].
    - A rule table is a dictionary of dictionaries of JSON values, as the
      annotations [rules: Dict] and [spec: Dict] of the source have it. *)

From Stdlib Require Import ZArith NArith PrimFloat Ascii String.
From stdpp Require Import gmap strings list fin_maps pretty.

Set Warnings "-register-all,-inexact-float".

Open Scope N_scope.

(* ===================================================================== *)
(** ** Python strings                                                     *)
(* ===================================================================== *)

Abbreviation pystr := (list N).

(** An ASCII literal of the source as code points. *)
Definition str (s : string) : pystr :=
  (λ a, N_of_ascii a) <$> list_ascii_of_string s.

(** The byte-order mark U+FEFF and the bullet marker (U+2022, U+0020):
    the two literals of the source outside ASCII. *)
Definition BOM : pystr := [65279].
Definition bullet_dot : pystr := [8226; 32].

(** [text.startswith(pref)] *)
Fixpoint startswith (text pref : pystr) {struct pref} : bool :=
  match pref, text with
  | [], _ => true
  | p :: pref', c :: text' => (c =? p) && startswith text' pref'
  | _ :: _, [] => false
  end.

Definition is_nil {A} (l : list A) : bool :=
  match l with [] => true | _ => false end.

Definition mem (c : N) (chars : pystr) : bool := existsb (N.eqb c) chars.

(** [s.rstrip(chars)] and [s.lstrip(chars)] for a predicate on code points *)
Definition rstrip_by (drop_it : N → bool) (s : pystr) : pystr :=
  foldr (λ c acc, if is_nil acc && drop_it c then [] else c :: acc) [] s.

Fixpoint lstrip_by (drop_it : N → bool) (s : pystr) : pystr :=
  match s with
  | c :: s' => if drop_it c then lstrip_by drop_it s' else s
  | [] => []
  end.

(** [s.rstrip(chars)] *)
Definition rstrip (s chars : pystr) : pystr := rstrip_by (λ c, mem c chars) s.

(** [str.isspace] on one code point (CPython's [_PyUnicode_IsWhitespace]);
    it is also the class [\s] of [re] on a [str] pattern. *)
Definition isspace (c : N) : bool :=
  ((9 <=? c) && (c <=? 13)) || ((28 <=? c) && (c <=? 32))
  || (c =? 133) || (c =? 160) || (c =? 5760)
  || ((8192 <=? c) && (c <=? 8202))
  || (c =? 8232) || (c =? 8233) || (c =? 8239) || (c =? 8287) || (c =? 12288).

(** [s.strip()] *)
Definition strip (s : pystr) : pystr := rstrip_by isspace (lstrip_by isspace s).

(** [s[i:j]] for constants [0 <= i <= j], [s[i:]] and [s[i:-1]] *)
Definition slice (s : pystr) (i j : nat) : pystr := drop i (take j s).
Definition slice_from (s : pystr) (i : nat) : pystr := drop i s.
Definition slice_to_last (s : pystr) (i : nat) : pystr :=
  drop i (take (length s - 1) s).

(** [s.split(sep)] for a separator of one code point *)
Fixpoint split (s : pystr) (sep : N) : list pystr :=
  match s with
  | [] => [[]]
  | c :: s' =>
    if c =? sep then [] :: split s' sep
    else match split s' sep with
         | w :: ws => (c :: w) :: ws
         | [] => [[c]]
         end
  end.

(** [s.upper()], used by the source only in [upper().startswith("RGB(")].
    ASCII letters are upper-cased; the other code points are kept: no code
    point outside ASCII upper-cases to text that begins with [R], [G], [B]
    or a parenthesis, so the prefix test is decided by the ASCII part. *)
Definition upper_char (c : N) : N :=
  if (97 <=? c) && (c <=? 122) then c - 32 else c.
Definition upper (s : pystr) : pystr := upper_char <$> s.

(* ===================================================================== *)
(** ** Exceptions                                                         *)
(* ===================================================================== *)

Inductive exn := ValueError | TypeError.

Inductive result (A : Type) :=
  | Ok (a : A)
  | Raise (e : exn).
Arguments Ok {A} a.
Arguments Raise {A} e.

#[export] Instance result_ret : MRet result := λ A a, Ok a.
#[export] Instance result_bind : MBind result := λ A B f m,
  match m with Ok a => f a | Raise e => Raise e end.

(** A list comprehension whose element expression can raise *)
Fixpoint comprehension {A B} (f : A → result B) (l : list A) : result (list B) :=
  match l with
  | [] => Ok []
  | x :: l' => y ← f x; ys ← comprehension f l'; Ok (y :: ys)
  end.

(** [for x in l: st = body(st, x)] with a body that can raise *)
Fixpoint for_each {S A} (body : S → A → result S) (l : list A) (st : S) : result S :=
  match l with
  | [] => Ok st
  | x :: l' => st' ← body st x; for_each body l' st'
  end.

(** [try: ... except: pass] followed by the fall-through value *)
Definition try_except_pass {A} (block : result A) (fallthrough : result A) : result A :=
  match block with Ok a => Ok a | Raise _ => fallthrough end.

(* ===================================================================== *)
(** ** JSON values                                                        *)
(* ===================================================================== *)

(** What [json.loads] yields and what the literal [DEFAULT_STYLE_MAP] holds *)
Inductive pyval :=
  | VNone
  | VBool (b : bool)
  | VInt (z : Z)
  | VFloat (x : float)
  | VStr (s : pystr)
  | VList (l : list pyval)
  | VDict (d : list (string * pyval)).

(** Python truth value, as tested by [if spec.get(key):] *)
Definition truthy (v : pyval) : bool :=
  match v with
  | VNone => false
  | VBool b => b
  | VInt z => negb (z =? 0)%Z
  | VFloat x => negb (PrimFloat.eqb x 0%float)
  | VStr s => negb (is_nil s)
  | VList l => negb (is_nil l)
  | VDict d => negb (is_nil d)
  end.

Abbreviation Dict := (gmap string pyval).
Abbreviation Rules := (gmap string (gmap string pyval)).
Abbreviation Counters := (gmap string Z).

(* ===================================================================== *)
(** ** python-docx objects                                                *)
(* ===================================================================== *)

Inductive WD_ALIGN_PARAGRAPH := LEFT | CENTER | RIGHT | JUSTIFY.

Abbreviation RGB := (Z * Z * Z)%type.

(** [docx.shared.RGBColor(r, g, b)]: three integers in 0..255, else
    [ValueError]. *)
Definition RGBColor (r g b : Z) : result RGB :=
  if forallb (λ v, (0 <=? v)%Z && (v <=? 255)%Z) [r; g; b]
  then Ok (r, g, b) else Raise ValueError.

Record Font := mkFont {
  f_name : option pyval;
  f_size : option Z;
  f_bold : option pyval;
  f_italic : option pyval;
  f_color_rgb : option RGB
}.

Record Run := mkRun { r_text : pystr; r_font : Font }.

Record ParagraphFormat := mkParagraphFormat {
  line_spacing : option pyval;
  space_before : option Z;
  space_after : option Z;
  left_indent : option Z;
  first_line_indent : option Z;
  keep_with_next : option bool;
  keep_together : option bool
}.

Record Paragraph := mkParagraph {
  alignment : option WD_ALIGN_PARAGRAPH;
  paragraph_format : ParagraphFormat;
  runs : list Run
}.

Abbreviation Document := (list Paragraph).

Definition no_font : Font := mkFont None None None None None.
Definition no_format : ParagraphFormat :=
  mkParagraphFormat None None None None None None None.

(** [p.add_run(text)] on a fresh run *)
Definition new_run (text : pystr) : Run := mkRun text no_font.

(** [doc.add_paragraph(text)]: a new paragraph, with one run that holds the
    text unless the text is empty. *)
Definition add_paragraph (text : pystr) : Paragraph :=
  mkParagraph None no_format (if is_nil text then [] else [new_run text]).

(** [p.text] *)
Definition paragraph_text (p : Paragraph) : pystr := concat (r_text <$> runs p).

(* ===================================================================== *)
(** ** The builtin [int] and the module [re]                              *)
(* ===================================================================== *)

(** [Py_ISSPACE], the blanks [int] skips around a literal *)
Definition py_isspace (c : N) : bool := ((9 <=? c) && (c <=? 13)) || (c =? 32).

(** [_PyLong_DigitValue]: the value of an ASCII digit or letter, 37 for
    every other code point. *)
Definition digit_value (c : N) : N :=
  if (48 <=? c) && (c <=? 57) then c - 48
  else if (97 <=? c) && (c <=? 122) then c - 87
  else if (65 <=? c) && (c <=? 90) then c - 55
  else 37.

Fixpoint span (P : N → bool) (s : pystr) : pystr * pystr :=
  match s with
  | c :: s' => if P c then let '(a, b) := span P s' in (c :: a, b) else ([], s)
  | [] => ([], [])
  end.

Fixpoint two_underscores (s : pystr) : bool :=
  match s with
  | c :: s' => ((c =? 95) && startswith s' [95]) || two_underscores s'
  | [] => false
  end.

Definition ends_with_underscore (s : pystr) : bool :=
  match last s with Some c => c =? 95 | None => false end.

(** [sys.int_info.default_max_str_digits], the bound CPython puts on the
    digits of a literal in a base that is not a power of two. *)
Definition max_str_digits : nat := 4300.

(** A regular expression of the shape [numbered_re] needs. *)
Inductive regex :=
  | Class (P : N → bool)
  | Plus (P : N → bool)
  | Seq (r1 r2 : regex)
  | Alt (r1 r2 : regex).

(** What is left of [s] after zero or more code points of class [P],
    longest run first: the order in which a greedy repeat backtracks. *)
Fixpoint star_ends (P : N → bool) (s : pystr) : list pystr :=
  match s with
  | c :: s' => if P c then star_ends P s' ++ [s] else [s]
  | [] => [[]]
  end.

(** What is left of [s] after each way [r] matches at its start, in the
    order the backtracking matcher tries them. *)
Fixpoint ends (r : regex) (s : pystr) : list pystr :=
  match r with
  | Class P => match s with c :: s' => if P c then [s'] else [] | [] => [] end
  | Plus P => match s with c :: s' => if P c then star_ends P s' else [] | [] => [] end
  | Seq r1 r2 => s1 ← ends r1 s; ends r2 s1
  | Alt r1 r2 => ends r1 s ++ ends r2 s
  end.

(** [re.match(r, s)]: the text after the match, [None] when there is none *)
Definition re_match (r : regex) (s : pystr) : option pystr := head (ends r s).

(** [re.sub(r, "", s)] for a pattern anchored by [^] and without the
    MULTILINE flag: only a match at position 0 can be replaced. *)
Definition re_sub_empty (r : regex) (s : pystr) : pystr :=
  match re_match r s with Some rest => rest | None => s end.

Definition is_punct (c : N) : bool := (c =? 46) || (c =? 41).
Definition is_ascii_letter (c : N) : bool :=
  ((65 <=? c) && (c <=? 90)) || ((97 <=? c) && (c <=? 122)).

(* ===================================================================== *)
(** ** The engine                                                         *)
(* ===================================================================== *)

Section Engine.

(** The Unicode character database is outside the repository.
    [unicode_decimal c] is the digit value of a code point [c] outside
    ASCII that has the decimal property (category Nd), [None] for any
    other: CPython's [Py_UNICODE_TODECIMAL]. *)
Variable unicode_decimal : N → option N.

(** [docx.shared.Pt] and [docx.shared.Cm]: a length given in points or in
    centimetres, as a count of English Metric Units. python-docx is outside
    the repository; the two are taken as they behave on the numbers a
    well-typed record holds, where they return. *)
Variable Pt : pyval → Z.
Variable Cm : pyval → Z.

(** The class [\d] of [re] on a [str] pattern *)
Definition isdecimal (c : N) : bool :=
  if c <? 128 then (48 <=? c) && (c <=? 57)
  else bool_decide (is_Some (unicode_decimal c)).

(** [_PyUnicode_TransformDecimalAndSpaceToASCII] on one code point: blanks
    become a space and decimal digits their ASCII digit before [int]
    reads the text; [?] stands for what is neither. *)
Definition to_ascii (c : N) : N :=
  if c <? 128 then c
  else if isspace c then 32
  else match unicode_decimal c with
       | Some d => if d <? 10 then 48 + d else 63
       | None => 63
       end.

(** [int(s, base)] for [base] 10 or 16: blanks around, a sign, for base 16
    a [0x] prefix, digits with single underscores between them. *)
Definition int (s : pystr) (base : N) : result Z :=
  let s := lstrip_by py_isspace (to_ascii <$> s) in
  let '(negative, s) :=
    match s with
    | 43 :: s' => (false, s')
    | 45 :: s' => (true, s')
    | _ => (false, s)
    end in
  let s :=
    match s with
    | 48 :: x :: s' =>
      if (base =? 16) && ((x =? 120) || (x =? 88))
      then match s' with 95 :: s'' => s'' | _ => s' end
      else s
    | _ => s
    end in
  let '(body, rest) := span (λ c, (digit_value c <? base) || (c =? 95)) s in
  let digits := filter (λ c, c ≠ 95) body in
  if is_nil body || startswith body [95] || two_underscores body
     || ends_with_underscore body
  then Raise ValueError
  else if negb (base =? 16) && bool_decide (max_str_digits < length digits)%nat
  then Raise ValueError
  else if negb (forallb py_isspace rest) then Raise ValueError
  else
    let n := foldl (λ acc c, acc * Z.of_N base + Z.of_N (digit_value c))%Z 0%Z digits in
    Ok (if negative then - n else n)%Z.

(** [_rgb], lines 68-78 *)
Definition _rgb (color_str : pyval) : result RGB :=
  match color_str with
  | VStr color_str =>
    if startswith color_str (str "#") && bool_decide (length color_str = 7%nat)
    then
      r ← int (slice color_str 1 3) 16;
      g ← int (slice color_str 3 5) 16;
      b ← int (slice color_str 5 7) 16;
      RGBColor r g b
    else if startswith (upper color_str) (str "RGB(")
    then
      let parts := split (slice_to_last color_str 4) 44 in
      try_except_pass
        (l ← comprehension (λ x, int (strip x) 10) parts;
         match l with
         | [r; g; b] => RGBColor r g b
         | _ => Raise ValueError
         end)
        (RGBColor 0 0 0)
    else RGBColor 0 0 0
  | _ => RGBColor 0 0 0
  end.

(** [align_map], line 81 *)
Definition align_map (a : pystr) : option WD_ALIGN_PARAGRAPH :=
  if decide (a = str "Left") then Some LEFT
  else if decide (a = str "Center") then Some CENTER
  else if decide (a = str "Right") then Some RIGHT
  else if decide (a = str "Justify") then Some JUSTIFY
  else None.

(** [spec.get("alignment") in align_map], then [align_map[...]]: a list or
    a dictionary cannot be hashed, any other value that is not one of the
    four keys is not in the map. *)
Definition align_lookup (v : option pyval) : result (option WD_ALIGN_PARAGRAPH) :=
  match v with
  | Some (VStr a) => Ok (align_map a)
  | Some (VList _) | Some (VDict _) => Raise TypeError
  | _ => Ok None
  end.

(** [if spec.get(key):] *)
Definition get_truthy (spec : Dict) (key : string) : bool :=
  match spec !! key with Some v => truthy v | None => false end.

Definition set_line_spacing v (pf : ParagraphFormat) :=
  mkParagraphFormat (Some v) (space_before pf) (space_after pf) (left_indent pf)
    (first_line_indent pf) (keep_with_next pf) (keep_together pf).
Definition set_space_before v (pf : ParagraphFormat) :=
  mkParagraphFormat (line_spacing pf) (Some v) (space_after pf) (left_indent pf)
    (first_line_indent pf) (keep_with_next pf) (keep_together pf).
Definition set_space_after v (pf : ParagraphFormat) :=
  mkParagraphFormat (line_spacing pf) (space_before pf) (Some v) (left_indent pf)
    (first_line_indent pf) (keep_with_next pf) (keep_together pf).
Definition set_left_indent v (pf : ParagraphFormat) :=
  mkParagraphFormat (line_spacing pf) (space_before pf) (space_after pf) (Some v)
    (first_line_indent pf) (keep_with_next pf) (keep_together pf).
Definition set_first_line_indent v (pf : ParagraphFormat) :=
  mkParagraphFormat (line_spacing pf) (space_before pf) (space_after pf) (left_indent pf)
    (Some v) (keep_with_next pf) (keep_together pf).
Definition set_keep_with_next v (pf : ParagraphFormat) :=
  mkParagraphFormat (line_spacing pf) (space_before pf) (space_after pf) (left_indent pf)
    (first_line_indent pf) (Some v) (keep_together pf).
Definition set_keep_together v (pf : ParagraphFormat) :=
  mkParagraphFormat (line_spacing pf) (space_before pf) (space_after pf) (left_indent pf)
    (first_line_indent pf) (keep_with_next pf) (Some v).

Definition set_name v (f : Font) :=
  mkFont (Some v) (f_size f) (f_bold f) (f_italic f) (f_color_rgb f).
Definition set_size v (f : Font) :=
  mkFont (f_name f) (Some v) (f_bold f) (f_italic f) (f_color_rgb f).
Definition set_bold v (f : Font) :=
  mkFont (f_name f) (f_size f) (Some v) (f_italic f) (f_color_rgb f).
Definition set_italic v (f : Font) :=
  mkFont (f_name f) (f_size f) (f_bold f) (Some v) (f_color_rgb f).
Definition set_color_rgb v (f : Font) :=
  mkFont (f_name f) (f_size f) (f_bold f) (f_italic f) (Some v).

(** Lines 85-91: the paragraph format after the assignments *)
Definition style_format (spec : Dict) (pf : ParagraphFormat) : ParagraphFormat :=
  let pf := match spec !! "line_spacing" with
            | Some v => set_line_spacing v pf | None => pf end in
  let pf := match spec !! "spacing_before_pt" with
            | Some v => set_space_before (Pt v) pf | None => pf end in
  let pf := match spec !! "spacing_after_pt" with
            | Some v => set_space_after (Pt v) pf | None => pf end in
  let pf := match spec !! "indent_left_cm" with
            | Some v => set_left_indent (Cm v) pf | None => pf end in
  let pf := match spec !! "indent_hanging_cm" with
            | Some v => set_first_line_indent (- Cm v)%Z pf | None => pf end in
  let pf := if get_truthy spec "keep_with_next" then set_keep_with_next true pf else pf in
  let pf := if get_truthy spec "keep_lines_together" then set_keep_together true pf else pf in
  pf.

(** Lines 95-99: the body of the loop over the runs *)
Definition style_run (spec : Dict) (r : Run) : result Run :=
  let f := r_font r in
  let f := match spec !! "font_name" with Some v => set_name v f | None => f end in
  let f := match spec !! "font_size_pt" with Some v => set_size (Pt v) f | None => f end in
  let f := match spec !! "bold" with Some v => set_bold v f | None => f end in
  let f := match spec !! "italic" with Some v => set_italic v f | None => f end in
  f ← match spec !! "color" with
      | Some v => c ← _rgb v; Ok (set_color_rgb c f)
      | None => Ok f
      end;
  Ok (mkRun (r_text r) f).

(** [_apply_paragraph_style], lines 80-99 *)
Definition _apply_paragraph_style (p : Paragraph) (spec : Dict) : result Paragraph :=
  a ← align_lookup (spec !! "alignment");
  let al := match a with Some w => Some w | None => alignment p end in
  let pf := style_format spec (paragraph_format p) in
  let runs := if is_nil (runs p) then [new_run []] else runs p in
  runs ← comprehension (style_run spec) runs;
  Ok (mkParagraph al pf runs).

(** [_add_styled_paragraph], lines 101-104 *)
Definition _add_styled_paragraph (doc : Document) (text : pystr) (style_name : string)
    (rules : Rules) (counters : Counters) : result (Document * gmap string Z) :=
  let p := add_paragraph text in
  p ← _apply_paragraph_style p (default ∅ (rules !! style_name));
  Ok (doc ++ [p], <[style_name := (default 0 (counters !! style_name) + 1)%Z]> counters).

(** Lines 108-110: the line without its trailing line ends and without one
    leading byte-order mark. [line or ""] is [line] for every [str]. *)
Definition normalize (line : pystr) : pystr :=
  let text := rstrip line [13; 10] in
  if startswith text BOM then slice_from text 1 else text.

Definition heading_markers : list (string * list pystr) :=
  [ ("Heading 1", [str "H1:"; str "# "]);
    ("Heading 2", [str "H2:"; str "## "]);
    ("Heading 3", [str "H3:"; str "### "]);
    ("Heading 4", [str "H4:"; str "#### "]) ].

(** [numbered_re], line 127 *)
Definition numbered_re : regex :=
  Alt (Seq (Plus isdecimal) (Seq (Class is_punct) (Class isspace)))
      (Seq (Class is_ascii_letter) (Seq (Class is_punct) (Class isspace))).

(** The loops of lines 119-124: the first style and prefix, in the order
    of [heading_markers], that the text starts with. *)
Fixpoint first_prefix (text : pystr) (prefixes : list pystr) : option pystr :=
  match prefixes with
  | pref :: prefixes' =>
    if startswith text pref then Some pref else first_prefix text prefixes'
  | [] => None
  end.

Fixpoint first_heading (text : pystr) (markers : list (string * list pystr))
    : option (string * pystr) :=
  match markers with
  | (style_name, prefixes) :: markers' =>
    match first_prefix text prefixes with
    | Some pref => Some (style_name, pref)
    | None => first_heading text markers'
    end
  | [] => None
  end.

(** [_detect_and_style_line], lines 106-141 *)
Definition _detect_and_style_line (doc : Document) (line : pystr) (rules : Rules)
    (counters : Counters) : result (Document * gmap string Z) :=
  let text := normalize line in
  match first_heading text heading_markers with
  | Some (style_name, pref) =>
    let clean := strip (slice_from text (length pref)) in
    _add_styled_paragraph doc clean style_name rules counters
  | None =>
    if bool_decide (is_Some (re_match numbered_re text)) then
      let clean := strip (re_sub_empty numbered_re text) in
      _add_styled_paragraph doc clean "Normal" rules counters
    else if existsb (startswith text) [str "- "; str "* "; bullet_dot] then
      let clean := if bool_decide (2 ≤ length text)%nat
                   then strip (slice_from text 2) else [] in
      let style_choice :=
        if bool_decide (is_Some (rules !! "Normal Bullet"))
        then "Normal Bullet" else "List Paragraph Bullet Points" in
      _add_styled_paragraph doc clean style_choice rules counters
    else
      _add_styled_paragraph doc text "Normal" rules counters
  end.

(** [DEFAULT_STYLE_MAP], lines 13-66 *)
Definition DEFAULT_STYLE_MAP : Rules :=
  let s (x : string) := VStr (str x) in
  list_to_map [
    ("Heading 1", list_to_map [
      ("font_name", s "Century Gothic"); ("font_size_pt", VInt 14);
      ("bold", VBool true); ("italic", VBool false);
      ("color", s "#0052A3"); ("alignment", s "Left"); ("line_spacing", VFloat 1.15);
      ("spacing_before_pt", VInt 12); ("spacing_after_pt", VInt 6);
      ("keep_with_next", VBool true); ("keep_lines_together", VBool true);
      ("indent_left_cm", VInt 0); ("indent_hanging_cm", VInt 1);
      ("numbering_level", VInt 1); ("numbering_pattern", s "%1");
      ("based_on", s "Normal"); ("following_style", s "Normal") ]);
    ("Heading 2", list_to_map [
      ("font_name", s "Century Gothic"); ("font_size_pt", VInt 12);
      ("bold", VBool true); ("italic", VBool false);
      ("color", s "#0052A3"); ("alignment", s "Left"); ("line_spacing", VFloat 1.15);
      ("spacing_before_pt", VInt 12); ("spacing_after_pt", VInt 6);
      ("keep_with_next", VBool true); ("keep_lines_together", VBool true);
      ("indent_left_cm", VInt 0); ("indent_hanging_cm", VFloat 1.02);
      ("numbering_level", VInt 2); ("numbering_pattern", s "%1.%2");
      ("based_on", s "Normal"); ("following_style", s "Normal") ]);
    ("Heading 3", list_to_map [
      ("font_name", s "Century Gothic"); ("font_size_pt", VInt 11);
      ("bold", VBool true); ("italic", VBool false);
      ("color", s "#0052A3"); ("alignment", s "Left"); ("line_spacing", VFloat 1.15);
      ("spacing_before_pt", VInt 8); ("spacing_after_pt", VInt 6);
      ("keep_with_next", VBool true); ("keep_lines_together", VBool true);
      ("indent_left_cm", VInt 0); ("indent_hanging_cm", VFloat 1.27);
      ("numbering_level", VInt 3); ("numbering_pattern", s "%1.%2.%3");
      ("based_on", s "Normal"); ("following_style", s "Normal") ]);
    ("Heading 4", list_to_map [
      ("font_name", s "Century Gothic"); ("font_size_pt", VInt 9);
      ("bold", VBool false); ("italic", VBool false);
      ("color", s "RGB(1,95,95)"); ("alignment", s "Left"); ("line_spacing", VFloat 1.5);
      ("spacing_before_pt", VInt 8); ("spacing_after_pt", VInt 6);
      ("keep_with_next", VBool true); ("keep_lines_together", VBool true);
      ("indent_left_cm", VInt 0); ("indent_hanging_cm", VFloat 1.52);
      ("numbering_level", VInt 4); ("numbering_pattern", s "%1.%2.%3.%4");
      ("based_on", s "Normal"); ("following_style", s "Normal") ]);
    ("Normal", list_to_map [
      ("font_name", s "Century Gothic"); ("font_size_pt", VInt 10);
      ("bold", VBool false); ("italic", VBool false);
      ("color", s "Text 1"); ("alignment", s "Left"); ("line_spacing", VFloat 1.0);
      ("spacing_before_pt", VInt 0); ("spacing_after_pt", VInt 6);
      ("widow_orphan_control", VBool true);
      ("based_on", VNone); ("following_style", s "Normal") ]);
    ("List Paragraph Bullet Points", list_to_map [
      ("font_name", s "Century Gothic"); ("font_size_pt", VFloat 10.5);
      ("bold", VBool false); ("italic", VBool false);
      ("color", s "Text 1"); ("alignment", s "Left"); ("line_spacing", VFloat 1.0);
      ("spacing_before_pt", VInt 0); ("spacing_after_pt", VInt 0);
      ("indent_left_cm", VFloat 1.27);
      ("spacing_same_paragraphs", VBool false); ("based_on", s "Normal");
      ("following_style", s "List Paragraph Bullet Points") ]);
    ("Normal Bullet", list_to_map [
      ("font_name", s "Century Gothic"); ("font_size_pt", VInt 10);
      ("bold", VBool false); ("italic", VBool false);
      ("color", s "Text 1"); ("alignment", s "Left"); ("line_spacing", VFloat 1.08);
      ("spacing_before_pt", VInt 8); ("spacing_after_pt", VInt 8);
      ("indent_hanging_cm", VFloat 0.63);
      ("indent_left_cm", VFloat 1.27); ("bullet_level", VInt 1);
      ("bullet_alignment_cm", VFloat 0.63);
      ("based_on", s "List Paragraph Bullet Point");
      ("following_style", s "Normal Bullet") ])
  ].

(** The rule table and the build loop of [format_doc], lines 149-152 and
    169-171. [style_map] is [None] when the form field [style_map_json] is
    absent or empty, and the parsed table otherwise; [lines] is the decoded
    draft. The outcome is the document and the counters of the report. *)
Definition format_doc (lines : list pystr) (style_map : option Rules)
    : result (Document * gmap string Z) :=
  let rules := default DEFAULT_STYLE_MAP style_map in
  for_each (λ '(out_doc, counters) line,
              _detect_and_style_line out_doc line rules counters)
           lines ([], ∅).

(* ===================================================================== *)
(** ** The specification's reading of the engine                          *)
(* ===================================================================== *)

(** The rule chain of the specification (4.3 and 9): an ordered list of
    rules, each a predicate on the normalized text, a transform of it and
    a style name; the first rule whose predicate holds decides, and a text
    no rule accepts is "Normal" and unchanged. The three detections are
    those of the source; the chain fixes their order. *)
Record rule := mkRule {
  applies : pystr → bool;
  cleaned : pystr → pystr;
  style_for : Rules → string
}.

Definition heading_rule (style_name : string) (pref : pystr) : rule :=
  mkRule (λ text, startswith text pref)
         (λ text, strip (slice_from text (length pref)))
         (λ _, style_name).

Definition numbered_rule : rule :=
  mkRule (λ text, bool_decide (is_Some (re_match numbered_re text)))
         (λ text, strip (re_sub_empty numbered_re text))
         (λ _, "Normal").

(** The candidates for the bullet style, tried in order against the table *)
Definition bullet_style (rules : Rules) : string :=
  default "List Paragraph Bullet Points"
          (head (filter (λ k, is_Some (rules !! k)) ["Normal Bullet"])).

Definition bullet_rule : rule :=
  mkRule (λ text, startswith text (str "- ") || startswith text (str "* ")
                  || startswith text bullet_dot)
         (λ text, strip (slice_from text 2))
         bullet_style.

Definition rule_chain : list rule :=
  [ heading_rule "Heading 1" (str "H1:"); heading_rule "Heading 1" (str "# ");
    heading_rule "Heading 2" (str "H2:"); heading_rule "Heading 2" (str "## ");
    heading_rule "Heading 3" (str "H3:"); heading_rule "Heading 3" (str "### ");
    heading_rule "Heading 4" (str "H4:"); heading_rule "Heading 4" (str "#### ");
    numbered_rule; bullet_rule ].

Fixpoint first_match (text : pystr) (chain : list rule) : option rule :=
  match chain with
  | r :: chain' => if applies r text then Some r else first_match text chain'
  | [] => None
  end.

Definition classify (rules : Rules) (text : pystr) : string * pystr :=
  match first_match text rule_chain with
  | Some r => (style_for r rules, cleaned r text)
  | None => ("Normal", text)
  end.

(** The heading prefixes with their styles, as the specification lists
    them (8): the four tags, then the four hash markers. *)
Definition heading_prefixes : list (pystr * string) :=
  [ (str "H1:", "Heading 1"); (str "H2:", "Heading 2");
    (str "H3:", "Heading 3"); (str "H4:", "Heading 4");
    (str "# ", "Heading 1"); (str "## ", "Heading 2");
    (str "### ", "Heading 3"); (str "#### ", "Heading 4") ]%string.

(** A numbering token: one or more digits, or a single letter, then a full
    stop or a closing parenthesis, then one code point of class [blank]. *)
Definition numbering_token (blank : N → bool) (token : pystr) : bool :=
  match span isdecimal token with
  | (_ :: _, [p; w]) => is_punct p && blank w
  | ([], [l; p; w]) => is_ascii_letter l && is_punct p && blank w
  | _ => false
  end.

Definition is_space (c : N) : bool := c =? 32.

(** The two colour forms of the specification (4.1): a marker and six
    hexadecimal digits; [RGB(r,g,b)] with three decimal integers. *)
Definition is_hex_digit (c : N) : bool :=
  ((48 <=? c) && (c <=? 57)) || ((65 <=? c) && (c <=? 70)) || ((97 <=? c) && (c <=? 102)).

Definition hex_form (s : pystr) : bool :=
  match s with
  | 35 :: ds => bool_decide (length ds = 6%nat) && forallb is_hex_digit ds
  | _ => false
  end.

Definition decimal_integer (w : pystr) : bool :=
  negb (is_nil w) && forallb (λ c, (48 <=? c) && (c <=? 57)) w.

Definition rgb_form (s : pystr) : bool :=
  startswith s (str "RGB(") && bool_decide (last s = Some 41)
  && match split (slice_to_last s 4) 44 with
     | [r; g; b] => decimal_integer r && decimal_integer g && decimal_integer b
     | _ => false
     end.

(** The body of the [try] block of [_rgb] on the text between the
    parentheses. *)
Definition components (inner : pystr) : result RGB :=
  l ← comprehension (λ x, int (strip x) 10) (split inner 44);
  match l with
  | [r; g; b] => RGBColor r g b
  | _ => Raise ValueError
  end.

(** The keys [_apply_paragraph_style] reads *)
Definition known_keys : list string :=
  [ "alignment"; "line_spacing"; "spacing_before_pt"; "spacing_after_pt";
    "indent_left_cm"; "indent_hanging_cm"; "keep_with_next";
    "keep_lines_together"; "font_name"; "font_size_pt"; "bold"; "italic";
    "color" ]%string.

(** The sum of the counters and the number of lines of one style *)
Definition total (counters : gmap string Z) : Z :=
  map_fold (λ _ n acc, n + acc)%Z 0%Z counters.

(** Line 104 as a function of the counters *)
Definition bump (counters : gmap string Z) (style_name : string) : gmap string Z :=
  <[style_name := (default 0 (counters !! style_name) + 1)%Z]> counters.

Definition style_of (rules : Rules) (line : pystr) : string :=
  (classify rules (normalize line)).1.

Definition text_of (rules : Rules) (line : pystr) : pystr :=
  (classify rules (normalize line)).2.

(** The counters after one more line *)
Definition count_line (rules : Rules) (counters : gmap string Z) (line : pystr)
    : gmap string Z :=
  bump counters (style_of rules line).

Definition lines_of_style (rules : Rules) (style_name : string) (lines : list pystr) : nat :=
  length (filter (λ line, style_of rules line = style_name) lines).

(** A record on which neither of the two raising steps of the styler
    raises: the lookup of the alignment and the resolution of the colour *)
Definition record_applies (spec : Dict) : bool :=
  match align_lookup (spec !! "alignment") with Ok _ => true | Raise _ => false end
  && match spec !! "color" with
     | Some v => match _rgb v with Ok _ => true | Raise _ => false end
     | None => true
     end.

(** A rule table every record of which the styler applies without raising *)
Definition applicable (rules : Rules) : Prop :=
  ∀ style_name spec p, rules !! style_name = Some spec →
    ∃ p', _apply_paragraph_style p spec = Ok p'.

(** Values of the parameters for the worked examples: the Arabic-Indic
    digits U+0660 to U+0669 next to ASCII, and the lengths of whole numbers
    (12700 EMU to the point, 360000 to the centimetre). *)
Definition sample_decimal (c : N) : option N :=
  if (1632 <=? c) && (c <=? 1641) then Some (c - 1632) else None.

Definition sample_Pt (v : pyval) : Z :=
  match v with VInt z => z * 12700 | VBool true => 12700 | _ => 0 end%Z.

Definition sample_Cm (v : pyval) : Z :=
  match v with VInt z => z * 360000 | VBool true => 360000 | _ => 0 end%Z.

Definition bad_colour : Dict := {[ "color" := VStr (str "#GGGGGG") ]}.
Definition bad_rules : Rules := {[ "Normal" := bad_colour ]}.

(* ===================================================================== *)
(** ** Further definitions                                                *)
(* ===================================================================== *)

(** The value of a text of hexadecimal digits *)
Definition hex_value (p : pystr) : Z :=
  foldl (λ acc c, acc * 16 + Z.of_N (digit_value c))%Z 0%Z p.

(** [str(n)] for a natural number *)
Definition dec (n : N) : pystr := str (pretty n).

(** The code points below 128 *)
Definition ascii_range : list N := N.of_nat <$> seq 0 128.

(** The bytes 0 to 255 *)
Definition byte_range : list N := N.of_nat <$> seq 0 256.

(** Two hexadecimal digits are read by [int(_, 16)] as their value, which
    is a byte. *)
Definition hex_pair_read (c1 c2 : N) : bool :=
  implb (is_hex_digit c1 && is_hex_digit c2)
        (match int [c1; c2] 16 with
         | Ok z => (z =? hex_value [c1; c2])%Z && (0 <=? z)%Z && (z <=? 255)%Z
         | Raise _ => false
         end).

(** The decimal text of [n] has no comma and is read back by
    [int(x.strip())] as [n]. *)
Definition component_read (n : N) : bool :=
  negb (mem 44 (dec n))
  && match int (strip (dec n)) 10 with
     | Ok z => (z =? Z.of_N n)%Z
     | Raise _ => false
     end.

(** The line boundaries of [str.splitlines] *)
Definition is_linebreak (c : N) : bool :=
  ((10 <=? c) && (c <=? 13)) || ((28 <=? c) && (c <=? 30))
  || (c =? 133) || (c =? 8232) || (c =? 8233).

(** [s.splitlines()]: a carriage return followed by a line feed is one
    boundary; a boundary at the very end opens no further line. *)
Fixpoint splitlines (s : pystr) : list pystr :=
  match s with
  | [] => []
  | c :: s' =>
    if is_linebreak c then
      if c =? 13
      then match s' with
           | 10 :: s'' => [] :: splitlines s''
           | _ => [] :: splitlines s'
           end
      else [] :: splitlines s'
    else match splitlines s' with
         | l :: ls => (c :: l) :: ls
         | [] => [[c]]
         end
  end.

(** The style names the classifier can give *)
Definition style_names : list string :=
  [ "Heading 1"; "Heading 2"; "Heading 3"; "Heading 4"; "Normal";
    "Normal Bullet"; "List Paragraph Bullet Points" ]%string.

(** The record the builder applies to a line, and whether the styler
    applies it without raising *)
Definition record_of (rules : Rules) (line : pystr) : Dict :=
  default ∅ (rules !! style_of rules line).

Definition line_applies (rules : Rules) (line : pystr) : bool :=
  record_applies (record_of rules line).

(** The runs of a paragraph once the styler has made sure there is one *)
Definition runs_or_new (p : Paragraph) : list Run :=
  if is_nil (runs p) then [new_run []] else runs p.


(* ===================================================================== *)
(** ** Strings                                                            *)
(* ===================================================================== *)

#[local] Arguments N.eqb : simpl never.
#[local] Arguments N.leb : simpl never.
#[local] Arguments N.ltb : simpl never.

(** The literals of the source as the code points they stand for *)
Ltac literals :=
  repeat match goal with
         | |- context [str ?s] =>
           let v := eval vm_compute in (str s) in change (str s) with v
         end.

Lemma startswith_app (text pref : pystr) :
  startswith text pref = true ↔ ∃ rest, text = pref ++ rest.
Proof.
  revert text. induction pref as [|p pref IH]; intros text; simpl.
  - split; [eauto | done].
  - destruct text as [|c text].
    + split; [done | intros [rest H]; discriminate H].
    + rewrite andb_true_iff, N.eqb_eq, IH. split.
      * intros [-> [rest ->]]. eauto.
      * intros [rest H]. injection H as -> ->. eauto.
Qed.

Lemma rstrip_by_cons (P : N → bool) (c : N) (s : pystr) :
  rstrip_by P (c :: s) =
  if is_nil (rstrip_by P s) && P c then [] else c :: rstrip_by P s.
Proof. reflexivity. Qed.

Lemma rstrip_by_idem (P : N → bool) (s : pystr) :
  rstrip_by P (rstrip_by P s) = rstrip_by P s.
Proof.
  induction s as [|c s IH]; [done|].
  rewrite rstrip_by_cons.
  destruct (is_nil (rstrip_by P s) && P c) eqn:E; [done|].
  by rewrite rstrip_by_cons, IH, E.
Qed.

Lemma rstrip_by_tail (P : N → bool) (s t : pystr) (c : N) :
  rstrip_by P s = c :: t → rstrip_by P t = t.
Proof.
  intros H. pose proof (rstrip_by_idem P s) as Hi.
  rewrite H, rstrip_by_cons in Hi.
  destruct (is_nil (rstrip_by P t) && P c); [done|].
  by injection Hi.
Qed.

Lemma rstrip_by_head (P : N → bool) (s t : pystr) (c : N) :
  rstrip_by P s = c :: t → ∃ s', s = c :: s' ∧ (t = [] ∨ rstrip_by P s' = t).
Proof.
  destruct s as [|c' s']; [done|]. rewrite rstrip_by_cons.
  destruct (is_nil (rstrip_by P s') && P c'); [done|].
  intros H. injection H as -> <-. eauto.
Qed.

Lemma normalize_bom_bom (s t : pystr) :
  rstrip s [13; 10] = 65279 :: 65279 :: t → startswith s (BOM ++ BOM) = true.
Proof.
  intros H. apply rstrip_by_head in H as (s1 & -> & [H|H]); [done|].
  by apply rstrip_by_head in H as (s2 & -> & _).
Qed.

Lemma startswith_BOM (t : pystr) :
  startswith t BOM = true → ∃ t', t = 65279 :: t'.
Proof. intros H. apply startswith_app in H as [t' ->]. by exists t'. Qed.

(* ===================================================================== *)
(** ** Normalization                                                      *)
(* ===================================================================== *)

(** C7 (as amended). For every line that does not begin with two
    byte-order marks, normalizing twice is normalizing once: the trailing
    line ends are gone after the first pass and the one leading mark, if
    there was one, too. *)
Theorem C7_normalize_idempotent (s : pystr) :
  startswith s (BOM ++ BOM) = false →
  normalize (normalize s) = normalize s.
Proof.
  intros Hs. unfold normalize, rstrip in *.
  set (P := λ c, mem c [13; 10]) in *.
  destruct (startswith (rstrip_by P s) BOM) eqn:E.
  - apply startswith_BOM in E as [t' E]. rewrite E.
    change (slice_from (65279 :: t') 1) with t'.
    rewrite (rstrip_by_tail P s t' _ E).
    destruct (startswith t' BOM) eqn:E'; [|done].
    apply startswith_BOM in E' as [t'' ->].
    apply normalize_bom_bom in E. congruence.
  - by rewrite rstrip_by_idem, E.
Qed.

(* ===================================================================== *)
(** ** The detections of the classifier                                   *)
(* ===================================================================== *)

Lemma first_heading_at (text pref : pystr) (style_name : string) :
  (pref, style_name) ∈ heading_prefixes →
  startswith text pref = true →
  first_heading text heading_markers = Some (style_name, pref).
Proof.
  intros Hin H. apply startswith_app in H as [rest ->].
  unfold heading_prefixes in Hin.
  repeat (apply elem_of_cons in Hin as [Hin|Hin];
          [injection Hin as -> ->; reflexivity|]).
  by apply elem_of_nil in Hin.
Qed.

Lemma first_heading_other (c : N) (s : pystr) :
  c ≠ 72 → c ≠ 35 → first_heading (c :: s) heading_markers = None.
Proof.
  intros H1 H2. apply N.eqb_neq in H1, H2.
  unfold heading_markers. literals. simpl. by rewrite H1, H2.
Qed.

Lemma first_heading_H (p : N) (s : pystr) :
  is_punct p = true → first_heading (72 :: p :: s) heading_markers = None.
Proof.
  unfold is_punct. rewrite orb_true_iff, !N.eqb_eq. by intros [-> | ->].
Qed.

Lemma isdecimal_ascii (c : N) :
  isdecimal c = true → c ≠ 72 ∧ c ≠ 35 ∧ is_punct c = false ∧ c ≠ 32.
Proof.
  unfold isdecimal, is_punct. destruct (c <? 128) eqn:E.
  - rewrite andb_true_iff, !N.leb_le. intros [??].
    repeat split; try lia. apply orb_false_iff. split; apply N.eqb_neq; lia.
  - apply N.ltb_ge in E. intros _.
    repeat split; try lia. apply orb_false_iff. split; apply N.eqb_neq; lia.
Qed.

Lemma is_punct_not_decimal (p : N) : is_punct p = true → isdecimal p = false.
Proof.
  intros Hp. destruct (isdecimal p) eqn:E; [|done].
  apply isdecimal_ascii in E as (_ & _ & E & _). congruence.
Qed.

Lemma is_ascii_letter_not_decimal (l : N) :
  is_ascii_letter l = true → isdecimal l = false ∧ l ≠ 35.
Proof.
  unfold is_ascii_letter, isdecimal.
  rewrite orb_true_iff, !andb_true_iff, !N.leb_le. intros H.
  assert ((l <? 128) = true) as -> by (apply N.ltb_lt; lia).
  split; [|lia]. apply andb_false_iff. rewrite !N.leb_gt. lia.
Qed.

Lemma is_space_isspace (w : N) : is_space w = true → isspace w = true.
Proof. unfold is_space. rewrite N.eqb_eq. by intros ->. Qed.

Lemma span_spec (P : N → bool) (s a b : pystr) :
  span P s = (a, b) →
  s = a ++ b ∧ forallb P a = true ∧ match b with c :: _ => P c = false | [] => True end.
Proof.
  revert a b. induction s as [|c s IH]; intros a b; simpl.
  - by intros [= <- <-].
  - destruct (P c) eqn:E.
    + destruct (span P s) as [a' b']. intros [= <- <-].
      destruct (IH a' b' eq_refl) as (-> & Ha & Hb). simpl. by rewrite E, Ha.
    + by intros [= <- <-].
Qed.

Lemma star_ends_run (P : N → bool) (ds : pystr) (c : N) (r : pystr) :
  forallb P ds = true → P c = false →
  ∃ l, star_ends P (ds ++ c :: r) = (c :: r) :: l.
Proof.
  intros Hds Hc. induction ds as [|d ds IH]; simpl in *.
  - rewrite Hc. eauto.
  - apply andb_true_iff in Hds as [-> Hds].
    destruct (IH Hds) as [l ->]. eauto.
Qed.

Lemma re_match_digits (d : N) (ds : pystr) (p w : N) (rest : pystr) :
  forallb isdecimal (d :: ds) = true → is_punct p = true → isspace w = true →
  re_match numbered_re ((d :: ds) ++ p :: w :: rest) = Some rest.
Proof.
  intros Hds Hp Hw. simpl in Hds. apply andb_true_iff in Hds as [Hd Hds].
  destruct (star_ends_run isdecimal ds p (w :: rest) Hds
              (is_punct_not_decimal p Hp)) as [l Hl].
  unfold re_match, numbered_re.
  cbn [ends app]. rewrite Hd, Hl, bind_cons.
  cbn [ends]. rewrite Hp, bind_singleton.
  cbn [ends]. by rewrite Hw.
Qed.

Lemma re_match_letter (c p w : N) (rest : pystr) :
  is_ascii_letter c = true → is_punct p = true → isspace w = true →
  re_match numbered_re (c :: p :: w :: rest) = Some rest.
Proof.
  intros Hc Hp Hw. destruct (is_ascii_letter_not_decimal c Hc) as [Hd _].
  unfold re_match, numbered_re.
  cbn [ends]. rewrite Hd, Hc, bind_singleton.
  change (([] : list pystr) ≫= _) with ([] : list pystr).
  cbn [ends app]. rewrite Hp, bind_singleton.
  cbn [ends]. by rewrite Hw.
Qed.

Lemma numbering_token_shape (blank : N → bool) (token : pystr) :
  numbering_token blank token = true →
  (∃ d ds p w, token = (d :: ds) ++ [p; w] ∧ forallb isdecimal (d :: ds) = true
               ∧ is_punct p = true ∧ blank w = true)
  ∨ (∃ c p w, token = [c; p; w] ∧ is_ascii_letter c = true
               ∧ is_punct p = true ∧ blank w = true).
Proof.
  unfold numbering_token.
  destruct (span isdecimal token) as [a b] eqn:E.
  apply span_spec in E as (-> & Ha & _).
  destruct a as [|d ds].
  - destruct b as [|c [|p [|w [|? ?]]]]; try done.
    rewrite !andb_true_iff. intros [[? ?] ?]. right. by exists c, p, w.
  - destruct b as [|p [|w [|? ?]]]; try done.
    rewrite !andb_true_iff. intros [? ?]. left. by exists d, ds, p, w.
Qed.

(** What a numbering token at the start of the text makes of the two
    detections that come first. *)
Lemma numbering_token_detected (blank : N → bool) (token rest : pystr) :
  (∀ w, blank w = true → isspace w = true) →
  numbering_token blank token = true →
  first_heading (token ++ rest) heading_markers = None
  ∧ re_match numbered_re (token ++ rest) = Some rest.
Proof.
  intros Hb H.
  apply numbering_token_shape in H
    as [(d & ds & p & w & -> & Hds & Hp & Hw) | (c & p & w & -> & Hc & Hp & Hw)].
  - split.
    + simpl in Hds. apply andb_true_iff in Hds as [Hd _].
      apply isdecimal_ascii in Hd as (? & ? & _). by apply first_heading_other.
    + rewrite <- (assoc_L (++)). by apply re_match_digits; auto.
  - split.
    + destruct (decide (c = 72)) as [-> | ?]; [by apply first_heading_H|].
      apply first_heading_other; [done|].
      by destruct (is_ascii_letter_not_decimal c Hc).
    + by apply re_match_letter; auto.
Qed.

Lemma bullet_detected (marker rest : pystr) :
  marker ∈ [str "- "; str "* "; bullet_dot] →
  first_heading (marker ++ rest) heading_markers = None
  ∧ re_match numbered_re (marker ++ rest) = None
  ∧ existsb (startswith (marker ++ rest)) [str "- "; str "* "; bullet_dot] = true
  ∧ (2 ≤ length (marker ++ rest))%nat.
Proof.
  intros Hin.
  repeat (apply elem_of_cons in Hin as [-> | Hin]);
    [| | |by apply elem_of_nil in Hin].
  - repeat split; try done. simpl. lia.
  - repeat split; try done. simpl. lia.
  - repeat split; try done; [|simpl; lia].
    unfold re_match, numbered_re, bullet_dot. cbn [ends app].
    by destruct (isdecimal 8226).
Qed.

(* ===================================================================== *)
(** ** The styler keeps the text                                          *)
(* ===================================================================== *)

Lemma bind_Ok {A B} (m : result A) (f : A → result B) (b : B) :
  m ≫= f = Ok b → ∃ a, m = Ok a ∧ f a = Ok b.
Proof. destruct m as [a|e]; [eauto | done]. Qed.

Lemma style_run_text (spec : Dict) (r r' : Run) :
  style_run spec r = Ok r' → r_text r' = r_text r.
Proof.
  unfold style_run. intros H.
  apply bind_Ok in H as (f & _ & H). by injection H as <-.
Qed.

Lemma comprehension_text (spec : Dict) (rs rs' : list Run) :
  comprehension (style_run spec) rs = Ok rs' → r_text <$> rs' = r_text <$> rs.
Proof.
  revert rs'. induction rs as [|r rs IH]; intros rs'; simpl.
  - by intros [= <-].
  - intros H. apply bind_Ok in H as (r' & Hr & H).
    apply bind_Ok in H as (rs'' & Hrs & H). injection H as <-.
    by rewrite !fmap_cons, (style_run_text _ _ _ Hr), (IH _ Hrs).
Qed.

Lemma apply_paragraph_style_text (p p' : Paragraph) (spec : Dict) :
  _apply_paragraph_style p spec = Ok p' → paragraph_text p' = paragraph_text p.
Proof.
  unfold _apply_paragraph_style. intros H.
  apply bind_Ok in H as (a & _ & H).
  apply bind_Ok in H as (rs & Hrs & H). injection H as <-.
  unfold paragraph_text. simpl.
  rewrite (comprehension_text _ _ _ Hrs).
  by destruct (runs p).
Qed.

Lemma add_paragraph_text (text : pystr) : paragraph_text (add_paragraph text) = text.
Proof.
  unfold paragraph_text, add_paragraph. destruct text as [|c text]; [done|].
  simpl. by rewrite (right_id_L [] (++)).
Qed.

(** A call of [_add_styled_paragraph] that returns has appended one
    paragraph, of the text it was given, and has counted the style once. *)
Lemma add_styled_paragraph_Ok (doc doc' : Document) (text : pystr)
    (style_name : string) (rules : Rules) (counters counters' : gmap string Z) :
  _add_styled_paragraph doc text style_name rules counters = Ok (doc', counters') →
  ∃ p, doc' = doc ++ [p] ∧ paragraph_text p = text
       ∧ counters' = <[style_name := (default 0 (counters !! style_name) + 1)%Z]> counters.
Proof.
  unfold _add_styled_paragraph. intros H.
  apply bind_Ok in H as (p & Hp & H). injection H as <- <-.
  exists p. split_and!; [done| |done].
  by rewrite (apply_paragraph_style_text _ _ _ Hp), add_paragraph_text.
Qed.

(* ===================================================================== *)
(** ** The line classifier                                                *)
(* ===================================================================== *)

Lemma detect_heading doc line rules counters style_name pref :
  first_heading (normalize line) heading_markers = Some (style_name, pref) →
  _detect_and_style_line doc line rules counters =
  _add_styled_paragraph doc
    (strip (slice_from (normalize line) (length pref))) style_name rules counters.
Proof. intros H. unfold _detect_and_style_line. cbv zeta. by rewrite H. Qed.

Lemma detect_numbered doc line rules counters rest :
  first_heading (normalize line) heading_markers = None →
  re_match numbered_re (normalize line) = Some rest →
  _detect_and_style_line doc line rules counters =
  _add_styled_paragraph doc (strip rest) "Normal" rules counters.
Proof.
  intros H1 H2. unfold _detect_and_style_line, re_sub_empty. cbv zeta.
  by rewrite H1, H2.
Qed.

(** C4. A normalized line that begins with one of the eight heading
    prefixes is given the heading style of that prefix, and its text is
    what follows the prefix, stripped of the blanks around it; the pair is
    the first, in the order Heading 1 to Heading 4 and tag before hash
    marker, that the line starts with. *)
Theorem C4_heading_prefix doc line rules counters pref style_name :
  (pref, style_name) ∈ heading_prefixes →
  startswith (normalize line) pref = true →
  first_heading (normalize line) heading_markers = Some (style_name, pref)
  ∧ _detect_and_style_line doc line rules counters =
    _add_styled_paragraph doc
      (strip (slice_from (normalize line) (length pref))) style_name rules counters.
Proof.
  intros Hin Hpre.
  pose proof (first_heading_at _ _ _ Hin Hpre) as H.
  split; [done | by apply detect_heading].
Qed.

(** C5. A normalized line that begins with one or more digits, or with a
    single letter, then a full stop or a closing parenthesis, then a space,
    matches no heading rule and is given the style "Normal"; its text is
    what follows the token, stripped of the blanks around it, and no
    numbering marker is put in the token's place. *)
Theorem C5_numbered_token doc line rules counters token rest :
  numbering_token is_space token = true →
  normalize line = token ++ rest →
  first_heading (normalize line) heading_markers = None
  ∧ _detect_and_style_line doc line rules counters =
    _add_styled_paragraph doc (strip rest) "Normal" rules counters.
Proof.
  intros Htok Hline.
  destruct (numbering_token_detected is_space token rest is_space_isspace Htok)
    as [H1 H2].
  rewrite <- Hline in H1, H2. split; [done | by apply detect_numbered].
Qed.

(** C10. The blank that ends a numbering token may be any code point of
    the class [\s], a tab for one, not only a space: the line is given the
    style "Normal" and loses the token together with that blank. *)
Theorem C10_numbered_any_blank doc line rules counters token rest :
  numbering_token isspace token = true →
  normalize line = token ++ rest →
  first_heading (normalize line) heading_markers = None
  ∧ _detect_and_style_line doc line rules counters =
    _add_styled_paragraph doc (strip rest) "Normal" rules counters.
Proof.
  intros Htok Hline.
  destruct (numbering_token_detected isspace token rest (λ _ H, H) Htok)
    as [H1 H2].
  rewrite <- Hline in H1, H2. split; [done | by apply detect_numbered].
Qed.

(** C6. A normalized line that begins with one of the three bullet markers
    matches no heading and no numbering rule; its text is the line without
    its first two code points, stripped of the blanks around it, and its
    style is "Normal Bullet" when the rule table has that key and "List
    Paragraph Bullet Points" when it has not. *)
Theorem C6_bullet doc line rules counters marker :
  marker ∈ [str "- "; str "* "; bullet_dot] →
  startswith (normalize line) marker = true →
  first_heading (normalize line) heading_markers = None
  ∧ re_match numbered_re (normalize line) = None
  ∧ _detect_and_style_line doc line rules counters =
    _add_styled_paragraph doc (strip (slice_from (normalize line) 2))
      (if bool_decide (is_Some (rules !! "Normal Bullet"))
       then "Normal Bullet" else "List Paragraph Bullet Points")
      rules counters.
Proof.
  intros Hin Hpre. apply startswith_app in Hpre as [rest Hline].
  destruct (bullet_detected marker rest Hin) as (H1 & H2 & H3 & H4).
  rewrite <- Hline in H1, H2, H3, H4. split_and!; [done..|].
  unfold _detect_and_style_line. cbv zeta.
  by rewrite H1, H2, H3, (bool_decide_true _ H4).
Qed.

Lemma bullet_style_choice (rules : Rules) :
  bullet_style rules =
  if bool_decide (is_Some (rules !! "Normal Bullet"))
  then "Normal Bullet" else "List Paragraph Bullet Points".
Proof.
  unfold bullet_style. rewrite filter_cons, filter_nil.
  destruct (decide (is_Some (rules !! "Normal Bullet"))) as [H|H].
  - by rewrite (bool_decide_true _ H).
  - by rewrite (bool_decide_false _ H).
Qed.

Lemma classify_refines doc line rules counters :
  _detect_and_style_line doc line rules counters =
  _add_styled_paragraph doc (text_of rules line) (style_of rules line) rules counters.
Proof.
  unfold _detect_and_style_line, text_of, style_of, classify. cbv zeta.
  set (text := normalize line).
  unfold heading_markers, rule_chain.
  cbn [first_heading first_prefix first_match applies heading_rule].
  repeat match goal with
         | |- context [if startswith text (str ?s) then Some (str ?s) else _] =>
           destruct (startswith text (str s)); [reflexivity|]
         end.
  cbn [numbered_rule applies].
  destruct (bool_decide (is_Some (re_match numbered_re text))); [reflexivity|].
  cbn [bullet_rule applies existsb].
  destruct (startswith text (str "- ") || startswith text (str "* ")
            || startswith text bullet_dot) eqn:E.
  - assert (2 ≤ length text)%nat as Hlen.
    { rewrite !orb_true_iff in E.
      destruct E as [[E|E]|E]; apply startswith_app in E as [rest ->];
        simpl; lia. }
    rewrite !orb_true_iff in E. rewrite (bool_decide_true _ Hlen).
    cbn [style_for cleaned fst snd]. rewrite bullet_style_choice.
    by destruct E as [[-> | ->] | ->]; rewrite ?orb_true_r.
  - rewrite !orb_false_iff in E. destruct E as [[-> ->] ->]. reflexivity.
Qed.

(** C1. Every raw line is classified, by a total function, as exactly one
    pair of a style name and a cleaned text, and that pair is the one the
    ordered rule chain gives for the normalized line, first match winning:
    the eight heading rules (Heading 1 to Heading 4, tag before hash
    marker), then the numbered-list rule, then the bullet rule. A line no
    rule accepts is "Normal" with its normalized text unchanged, the empty
    text of a blank line included. The classifier hands that one pair to
    [_add_styled_paragraph]: a call that returns has appended one paragraph
    of the cleaned text and counted the style once. *)
Theorem C1_rule_chain doc line rules counters :
  _detect_and_style_line doc line rules counters =
    _add_styled_paragraph doc (text_of rules line) (style_of rules line) rules counters
  ∧ (first_match (normalize line) rule_chain = None →
     style_of rules line = "Normal" ∧ text_of rules line = normalize line)
  ∧ (style_of rules [] = "Normal" ∧ text_of rules [] = [])
  ∧ (∀ doc' counters',
       _detect_and_style_line doc line rules counters = Ok (doc', counters') →
       ∃ p, doc' = doc ++ [p] ∧ paragraph_text p = text_of rules line
            ∧ counters' = <[style_of rules line :=
                             (default 0 (counters !! style_of rules line) + 1)%Z]> counters).
Proof.
  split; [|split; [|split]].
  - apply classify_refines.
  - unfold style_of, text_of, classify. by intros ->.
  - done.
  - intros doc' counters'. rewrite classify_refines.
    apply add_styled_paragraph_Ok.
Qed.

(* ===================================================================== *)
(** ** The colour resolver                                                *)
(* ===================================================================== *)

(** Outside the 7-character strings that begin with the marker, [_rgb]
    returns a colour for every value. *)
Lemma rgb_returns (v : pyval) :
  (∀ s, v = VStr s →
        startswith s (str "#") && bool_decide (length s = 7%nat) = false) →
  ∃ c, _rgb v = Ok c.
Proof.
  intros H. destruct v as [| | | |s| |]; try (by eexists).
  unfold _rgb. rewrite (H s eq_refl).
  destruct (startswith (upper s) (str "RGB(")); [|by eexists].
  unfold try_except_pass.
  match goal with |- context [match ?b with Ok _ => _ | Raise _ => _ end] =>
    destruct b end; by eexists.
Qed.

Lemma rgb_prefix_not_marker (pre s : pystr) :
  upper pre = str "RGB(" →
  startswith (pre ++ s) (str "#") = false
  ∧ startswith (upper (pre ++ s)) (str "RGB(") = true
  ∧ length pre = 4%nat.
Proof.
  intros H.
  destruct pre as [|c1 [|c2 [|c3 [|c4 [|? ?]]]]]; try done.
  injection H as H1 H2 H3 H4. split_and!; [|by apply startswith_app; eexists; unfold upper; rewrite fmap_app, fmap_cons, H1, !fmap_cons, H2, H3, H4|done].
  simpl. apply andb_false_iff. left. apply N.eqb_neq. intros ->.
  vm_compute in H1. discriminate H1.
Qed.

(** The checks of [RGBColor] are outside any [try] in the same branch. *)
Example rgb_raises_on_signed_hex :
  _rgb (VStr (str "#-1-1-1")) = Raise ValueError.
Proof. reflexivity. Qed.

(** In the [RGB(] branch the last code point is dropped unread, blanks
    around a component are stripped and [int] reads a sign and single
    underscores. *)
Example rgb_lenient_components :
  _rgb (VStr (str "RGB(1,2,30")) = Ok (1, 2, 3)%Z
  ∧ _rgb (VStr (str "RGB( 1 , +2 , 3_0 )")) = Ok (1, 2, 30)%Z
  ∧ _rgb (VStr (str "RGB(300,2,3)")) = Ok (0, 0, 0)%Z
  ∧ _rgb (VStr (str "RGB(1,2)")) = Ok (0, 0, 0)%Z.
Proof. repeat split; reflexivity. Qed.

(** C2 (what the code does). On a 7-character text that begins with the
    marker and goes on with six code points that are no hexadecimal
    digits, [_rgb] raises [ValueError]: the conversions of line 70 stand
    outside any [try], unlike those of the [RGB(] branch. *)
Theorem C2_rgb_raises_on_bad_hex :
  _rgb (VStr (str "#GGGGGG")) = Raise ValueError.
Proof. reflexivity. Qed.

(** C8 (as amended). The resolver maps "#0052A3" to (0,82,163),
    "RGB(1,95,95)" to (1,95,95), and "Text 1" and "RGB(bad)" to black.
    Every text that is not a 7-character text beginning with the marker
    and does not begin, in any letter case, with "RGB(" resolves to black;
    so does every text that begins that way and ends with a closing
    parenthesis when what stands between is not three integer literals,
    separated by commas, of values from 0 to 255. *)
Theorem C8_colour_forms :
  _rgb (VStr (str "#0052A3")) = Ok (0, 82, 163)%Z
  ∧ _rgb (VStr (str "RGB(1,95,95)")) = Ok (1, 95, 95)%Z
  ∧ _rgb (VStr (str "Text 1")) = Ok (0, 0, 0)%Z
  ∧ _rgb (VStr (str "RGB(bad)")) = Ok (0, 0, 0)%Z
  ∧ (∀ s, startswith s (str "#") && bool_decide (length s = 7%nat) = false →
          startswith (upper s) (str "RGB(") = false →
          _rgb (VStr s) = Ok (0, 0, 0)%Z)
  ∧ (∀ pre inner e, upper pre = str "RGB(" →
          components inner = Raise e →
          _rgb (VStr (pre ++ inner ++ [41])) = Ok (0, 0, 0)%Z).
Proof.
  split_and!; try reflexivity.
  - intros s H1 H2. unfold _rgb. by rewrite H1, H2.
  - intros pre inner e Hpre Hinner.
    destruct (rgb_prefix_not_marker pre (inner ++ [41]) Hpre) as (H1 & H2 & H3).
    unfold _rgb. rewrite H1, H2. cbn [andb].
    assert (slice_to_last (pre ++ inner ++ [41]) 4 = inner) as ->.
    { unfold slice_to_last. rewrite (assoc_L (++)), length_app. simpl.
      rewrite Nat.add_sub, take_app_length, <- H3. apply drop_app_length. }
    unfold components in Hinner. by rewrite Hinner.
Qed.

(* ===================================================================== *)
(** ** The paragraph styler                                               *)
(* ===================================================================== *)

Lemma comprehension_Ok {A B} (f : A → result B) (l : list A) :
  (∀ x, x ∈ l → ∃ y, f x = Ok y) → ∃ l', comprehension f l = Ok l'.
Proof.
  induction l as [|x l IH]; intros H; simpl; [by eexists|].
  destruct (H x) as [y ->]; [by left|].
  destruct IH as [l' ->]; [by intros ? ?; apply H; right|].
  by eexists.
Qed.

Lemma comprehension_Raise {A B} (f : A → result B) (x : A) (l : list A) (e : exn) :
  f x = Raise e → comprehension f (x :: l) = Raise e.
Proof. intros H. simpl. by rewrite H. Qed.

Lemma comprehension_Forall2 {A B} (f : A → result B) (l : list A) (l' : list B) :
  comprehension f l = Ok l' → Forall2 (λ x y, f x = Ok y) l l'.
Proof.
  revert l'. induction l as [|x l IH]; intros l'; simpl.
  - intros [= <-]. constructor.
  - intros H. apply bind_Ok in H as (y & Hy & H).
    apply bind_Ok in H as (ys & Hys & H). injection H as <-.
    constructor; auto.
Qed.

(** The styler returns whenever the alignment can be hashed and the colour,
    if there is one, resolves. *)
Lemma apply_paragraph_style_returns (p : Paragraph) (spec : Dict) :
  (∃ a, align_lookup (spec !! "alignment") = Ok a) →
  (∀ v, spec !! "color" = Some v → ∃ c, _rgb v = Ok c) →
  ∃ p', _apply_paragraph_style p spec = Ok p'.
Proof.
  intros [a Ha] Hc. unfold _apply_paragraph_style. rewrite Ha. simpl.
  destruct (comprehension_Ok (style_run spec)
              (if is_nil (runs p) then [new_run []] else runs p)) as [rs ->];
    [|by eexists].
  intros r _. unfold style_run.
  destruct (spec !! "color") as [v|]; [|by eexists].
  destruct (Hc v eq_refl) as [c ->]. by eexists.
Qed.

(** What a call of the styler that returns has assigned, attribute by
    attribute. *)
Lemma apply_paragraph_style_Ok (p p' : Paragraph) (spec : Dict) :
  _apply_paragraph_style p spec = Ok p' →
  (∃ a, align_lookup (spec !! "alignment") = Ok a
        ∧ alignment p' = match a with Some w => Some w | None => alignment p end)
  ∧ paragraph_format p' = style_format spec (paragraph_format p)
  ∧ Forall2 (λ r r', style_run spec r = Ok r')
            (if is_nil (runs p) then [new_run []] else runs p) (runs p').
Proof.
  unfold _apply_paragraph_style. intros H.
  apply bind_Ok in H as (a & Ha & H).
  apply bind_Ok in H as (rs & Hrs & H). injection H as <-. simpl.
  split_and!; [by exists a | done | by apply comprehension_Forall2].
Qed.

(** A field the record does not have leaves its attribute as it was; a
    field it has is assigned, the hanging indent with its sign changed;
    the two keep flags are set to true or left alone. *)
Lemma style_format_fields (spec : Dict) (pf : ParagraphFormat) :
  let pf' := style_format spec pf in
  line_spacing pf' = from_option Some (line_spacing pf) (spec !! "line_spacing")
  ∧ space_before pf' = from_option (λ v, Some (Pt v)) (space_before pf) (spec !! "spacing_before_pt")
  ∧ space_after pf' = from_option (λ v, Some (Pt v)) (space_after pf) (spec !! "spacing_after_pt")
  ∧ left_indent pf' = from_option (λ v, Some (Cm v)) (left_indent pf) (spec !! "indent_left_cm")
  ∧ first_line_indent pf' =
      from_option (λ v, Some (- Cm v)%Z) (first_line_indent pf) (spec !! "indent_hanging_cm")
  ∧ keep_with_next pf' =
      (if get_truthy spec "keep_with_next" then Some true else keep_with_next pf)
  ∧ keep_together pf' =
      (if get_truthy spec "keep_lines_together" then Some true else keep_together pf).
Proof.
  unfold style_format.
  destruct (spec !! "line_spacing"), (spec !! "spacing_before_pt"),
    (spec !! "spacing_after_pt"), (spec !! "indent_left_cm"),
    (spec !! "indent_hanging_cm"), (get_truthy spec "keep_with_next"),
    (get_truthy spec "keep_lines_together"); done.
Qed.

Lemma style_run_fields (spec : Dict) (r r' : Run) :
  style_run spec r = Ok r' →
  r_text r' = r_text r
  ∧ f_name (r_font r') = from_option Some (f_name (r_font r)) (spec !! "font_name")
  ∧ f_size (r_font r') = from_option (λ v, Some (Pt v)) (f_size (r_font r)) (spec !! "font_size_pt")
  ∧ f_bold (r_font r') = from_option Some (f_bold (r_font r)) (spec !! "bold")
  ∧ f_italic (r_font r') = from_option Some (f_italic (r_font r)) (spec !! "italic")
  ∧ match spec !! "color" with
    | Some v => ∃ c, _rgb v = Ok c ∧ f_color_rgb (r_font r') = Some c
    | None => f_color_rgb (r_font r') = f_color_rgb (r_font r)
    end.
Proof.
  unfold style_run. intros H. apply bind_Ok in H as (f & Hf & H).
  injection H as <-. simpl.
  destruct (spec !! "color") as [v|].
  - apply bind_Ok in Hf as (c & Hc & Hf). injection Hf as <-.
    destruct (spec !! "font_name"), (spec !! "font_size_pt"), (spec !! "bold"),
      (spec !! "italic"); simpl; split_and!; eauto.
  - injection Hf as <-.
    destruct (spec !! "font_name"), (spec !! "font_size_pt"), (spec !! "bold"),
      (spec !! "italic"); done.
Qed.

(** A key the styler does not read changes nothing. *)
Lemma apply_paragraph_style_unknown_key (p : Paragraph) (spec : Dict)
    (key : string) (v : pyval) :
  key ∉ known_keys →
  _apply_paragraph_style p (<[key := v]> spec) = _apply_paragraph_style p spec.
Proof.
  intros Hk.
  assert (Forall (λ k, <[key := v]> spec !! k = spec !! k) known_keys) as Hl.
  { apply Forall_forall. intros k Hin. apply lookup_insert_ne. by intros ->. }
  unfold known_keys in Hl.
  unfold _apply_paragraph_style, style_format, style_run, get_truthy.
  repeat (apply Forall_cons in Hl as [-> Hl]).
  reflexivity.
Qed.

(** A text that is none of the four alignment names is not assigned. *)
Lemma apply_paragraph_style_unknown_alignment (p p' : Paragraph) (spec : Dict)
    (a : pystr) :
  spec !! "alignment" = Some (VStr a) → align_map a = None →
  _apply_paragraph_style p spec = Ok p' → alignment p' = alignment p.
Proof.
  intros Ha Hm H. apply apply_paragraph_style_Ok in H as ((w & Hw & ->) & _).
  rewrite Ha in Hw. simpl in Hw. by rewrite Hm in Hw; injection Hw as <-.
Qed.

(** C9 (what the code does). The styler does not return on the record
    whose colour is "#GGGGGG": [_rgb] raises [ValueError] at line 99, for
    every paragraph. *)
Theorem C9_styler_raises_on_bad_colour (p : Paragraph) :
  _apply_paragraph_style p bad_colour = Raise ValueError.
Proof.
  unfold _apply_paragraph_style.
  change (align_lookup (bad_colour !! "alignment")) with (Ok (@None WD_ALIGN_PARAGRAPH)).
  simpl. destruct (runs p) as [|r rs]; reflexivity.
Qed.

(* ===================================================================== *)
(** ** The document builder                                               *)
(* ===================================================================== *)

Lemma total_comm (j1 j2 : string) (z1 z2 y : Z) :
  (z1 + (z2 + y) = z2 + (z1 + y))%Z.
Proof. lia. Qed.

Lemma total_bump (counters : gmap string Z) (style_name : string) :
  total (bump counters style_name) = (total counters + 1)%Z.
Proof.
  unfold total, bump. destruct (counters !! style_name) as [n|] eqn:E; simpl.
  - rewrite <- insert_delete_eq.
    rewrite map_fold_insert_L;
      [|intros; apply total_comm; done | apply lookup_delete_eq].
    rewrite (map_fold_delete_L _ _ style_name n counters);
      [lia | intros; apply total_comm; done | done].
  - rewrite map_fold_insert_L; [lia | intros; apply total_comm; done | done].
Qed.

Lemma lookup_bump (counters : gmap string Z) (s style_name : string) :
  default 0%Z (bump counters s !! style_name) =
  (default 0 (counters !! style_name) + if decide (s = style_name) then 1 else 0)%Z.
Proof.
  unfold bump. rewrite lookup_insert. destruct (decide (s = style_name)) as [->|];
    simpl; lia.
Qed.

Lemma count_lines_total (rules : Rules) (lines : list pystr) (counters : gmap string Z) :
  total (foldl (count_line rules) counters lines) = (total counters + Z.of_nat (length lines))%Z.
Proof.
  revert counters. induction lines as [|line lines IH]; intros counters; simpl.
  - lia.
  - rewrite IH. unfold count_line. rewrite total_bump. lia.
Qed.

Lemma count_lines_lookup (rules : Rules) (lines : list pystr) (counters : gmap string Z)
    (style_name : string) :
  default 0%Z (foldl (count_line rules) counters lines !! style_name) =
  (default 0 (counters !! style_name) + Z.of_nat (lines_of_style rules style_name lines))%Z.
Proof.
  unfold lines_of_style.
  revert counters. induction lines as [|line lines IH]; intros counters; simpl.
  - lia.
  - rewrite IH. unfold count_line. rewrite lookup_bump, filter_cons.
    destruct (decide (style_of rules line = style_name)); simpl; lia.
Qed.

Lemma count_lines_None (rules : Rules) (lines : list pystr) (counters : gmap string Z)
    (style_name : string) :
  foldl (count_line rules) counters lines !! style_name = None ↔
  counters !! style_name = None ∧ lines_of_style rules style_name lines = 0%nat.
Proof.
  unfold lines_of_style.
  revert counters. induction lines as [|line lines IH]; intros counters; simpl.
  - tauto.
  - rewrite IH, filter_cons. unfold count_line, bump. rewrite lookup_insert.
    destruct (decide (style_of rules line = style_name)); simpl;
      split; intros [? ?]; done.
Qed.

Lemma styler_returns_on_entry (rules : Rules) (style_name : string) (p : Paragraph) :
  applicable rules →
  ∃ p', _apply_paragraph_style p (default ∅ (rules !! style_name)) = Ok p'.
Proof.
  intros Hr. destruct (rules !! style_name) as [spec|] eqn:E; simpl.
  - by apply (Hr style_name).
  - apply apply_paragraph_style_returns.
    + rewrite lookup_empty. by eexists.
    + intros v. by rewrite lookup_empty.
Qed.

Lemma build_loop (rules : Rules) (lines : list pystr) (doc : Document) (counters : gmap string Z) :
  applicable rules →
  ∃ doc',
    for_each (λ '(out_doc, counters) line,
                _detect_and_style_line out_doc line rules counters)
             lines (doc, counters)
    = Ok (doc', foldl (count_line rules) counters lines)
    ∧ paragraph_text <$> doc' = (paragraph_text <$> doc) ++ (text_of rules <$> lines).
Proof.
  intros Hr. revert doc counters.
  induction lines as [|line lines IH]; intros doc counters; simpl.
  - exists doc. by rewrite (right_id_L [] (++)).
  - rewrite classify_refines. unfold _add_styled_paragraph at 1.
    destruct (styler_returns_on_entry rules (style_of rules line)
                (add_paragraph (text_of rules line)) Hr) as [p Hp].
    rewrite Hp.
    destruct (IH (doc ++ [p]) (count_line rules counters line)) as (doc' & Hd & Ht).
    exists doc'. split; [exact Hd|].
    rewrite Ht, fmap_app, <- (assoc_L (++)). simpl.
    by rewrite (apply_paragraph_style_text _ _ _ Hp), add_paragraph_text.
Qed.

Lemma record_applies_returns (spec : Dict) (p : Paragraph) :
  record_applies spec = true → ∃ p', _apply_paragraph_style p spec = Ok p'.
Proof.
  unfold record_applies. intros H. apply andb_true_iff in H as [Ha Hc].
  apply apply_paragraph_style_returns.
  - destruct (align_lookup (spec !! "alignment")); [by eexists | done].
  - intros v Hv. rewrite Hv in Hc. destruct (_rgb v); [by eexists | done].
Qed.

(** The built-in table is one the styler applies to the end. *)
Lemma default_applicable : applicable DEFAULT_STYLE_MAP.
Proof.
  intros style_name spec p H. apply record_applies_returns.
  revert style_name spec H.
  change (map_Forall (λ _ spec, record_applies spec = true) DEFAULT_STYLE_MAP).
  apply (bool_decide_unpack _). vm_compute. reflexivity.
Qed.

(** The builder on a table the styler applies to the end: one paragraph
    for each line, in the order of the lines and with the cleaned text of
    the line; counters that sum to the number of lines and give, style by
    style, the number of lines of that style, with no entry for a style no
    line has; no paragraph and no counter for no line. *)
Lemma format_doc_returns (lines : list pystr) (style_map : option Rules) :
  let rules := default DEFAULT_STYLE_MAP style_map in
  applicable rules →
  ∃ doc counters,
    format_doc lines style_map = Ok (doc, counters)
    ∧ paragraph_text <$> doc = text_of rules <$> lines
    ∧ total counters = Z.of_nat (length lines)
    ∧ (∀ style_name, default 0%Z (counters !! style_name)
                     = Z.of_nat (lines_of_style rules style_name lines))
    ∧ (∀ style_name, counters !! style_name = None
                     ↔ lines_of_style rules style_name lines = 0%nat)
    ∧ (lines = [] → doc = [] ∧ counters = ∅).
Proof.
  intros rules Hr. unfold format_doc. fold rules.
  destruct (build_loop rules lines [] ∅ Hr) as (doc & Hdoc & Ht).
  exists doc, (foldl (count_line rules) ∅ lines).
  split_and!; [done|done| | | |].
  - by rewrite count_lines_total.
  - intros style_name. by rewrite count_lines_lookup, lookup_empty.
  - intros style_name. rewrite count_lines_None, lookup_empty. tauto.
  - intros ->. simpl in Hdoc. by injection Hdoc as <-.
Qed.

(** C3 (what the code does). With a rule table whose "Normal" record has
    the colour "#GGGGGG", the builder gives neither a document nor
    counters for the one-line draft "x": the [ValueError] of [_rgb] leaves
    [format_doc]. *)
Theorem C3_builder_raises_on_bad_colour :
  format_doc [str "x"] (Some bad_rules) = Raise ValueError.
Proof. reflexivity. Qed.

(** The builder on the built-in table returns for every draft. *)
Corollary format_doc_default_returns (lines : list pystr) :
  ∃ doc counters,
    format_doc lines None = Ok (doc, counters)
    ∧ paragraph_text <$> doc = text_of DEFAULT_STYLE_MAP <$> lines
    ∧ total counters = Z.of_nat (length lines)
    ∧ (∀ style_name, default 0%Z (counters !! style_name)
                     = Z.of_nat (lines_of_style DEFAULT_STYLE_MAP style_name lines)).
Proof.
  destruct (format_doc_returns lines None default_applicable)
    as (doc & counters & H1 & H2 & H3 & H4 & _).
  by exists doc, counters.
Qed.

(* ===================================================================== *)
(** ** Further properties of the colour resolver                          *)
(* ===================================================================== *)

Lemma RGBColor_Ok (r g b : Z) (c : RGB) :
  RGBColor r g b = Ok c →
  c = (r, g, b) ∧ (0 ≤ r ≤ 255 ∧ 0 ≤ g ≤ 255 ∧ 0 ≤ b ≤ 255)%Z.
Proof.
  unfold RGBColor. destruct (forallb _ _) eqn:E; [|done].
  intros [= <-]. simpl in E.
  rewrite !andb_true_iff, !Z.leb_le in E. split; [done | lia].
Qed.

Lemma RGBColor_Raise (r g b : Z) (e : exn) :
  RGBColor r g b = Raise e → e = ValueError.
Proof. unfold RGBColor. destruct (forallb _ _); [done | by intros [= <-]]. Qed.

Lemma RGBColor_in_range (r g b : Z) :
  (0 ≤ r ≤ 255)%Z → (0 ≤ g ≤ 255)%Z → (0 ≤ b ≤ 255)%Z →
  RGBColor r g b = Ok (r, g, b).
Proof.
  intros ???. unfold RGBColor.
  assert (forallb (λ v, (0 <=? v)%Z && (v <=? 255)%Z) [r; g; b] = true) as ->; [|done].
  simpl. rewrite !andb_true_iff, !Z.leb_le. lia.
Qed.

Lemma int_Raise (s : pystr) (base : N) (e : exn) :
  int s base = Raise e → e = ValueError.
Proof.
  unfold int.
  match goal with |- context [let '(a, b) := ?X in _] => destruct X as [negative s0] end.
  match goal with |- context [let '(a, b) := ?X in _] => destruct X as [body rest] end.
  repeat match goal with |- context [if ?c then _ else _] => destruct c end;
    by intros [= <-].
Qed.

Lemma comprehension_Raise_from {A B} (f : A → result B) (l : list A) (e : exn) :
  comprehension f l = Raise e → ∃ x, x ∈ l ∧ f x = Raise e.
Proof.
  induction l as [|x l IH]; simpl; [done|].
  destruct (f x) as [y|e'] eqn:E; simpl.
  - destruct (comprehension f l) as [ys|e'']; simpl; [done|].
    intros [= ->]. destruct IH as (x' & ? & ?); [done|].
    exists x'. split; [by right | done].
  - intros [= ->]. exists x. split; [by left | done].
Qed.

(** X1. Every colour the resolver returns is a triple of bytes. *)
Theorem rgb_in_range (v : pyval) (r g b : Z) :
  _rgb v = Ok (r, g, b) →
  (0 ≤ r ≤ 255 ∧ 0 ≤ g ≤ 255 ∧ 0 ≤ b ≤ 255)%Z.
Proof.
  assert (∀ x y z, RGBColor x y z = Ok (r, g, b) →
            (0 ≤ r ≤ 255 ∧ 0 ≤ g ≤ 255 ∧ 0 ≤ b ≤ 255)%Z) as HR.
  { intros x y z H. apply RGBColor_Ok in H as [[= -> -> ->] ?]. done. }
  destruct v as [| | | |s| |]; try apply HR.
  unfold _rgb.
  destruct (startswith s (str "#") && bool_decide (length s = 7%nat)).
  - intros H. apply bind_Ok in H as (x & _ & H).
    apply bind_Ok in H as (y & _ & H). apply bind_Ok in H as (z & _ & H).
    by apply HR in H.
  - destruct (startswith (upper s) (str "RGB(")); [|apply HR].
    unfold try_except_pass.
    match goal with |- context [match ?b with Ok _ => _ | Raise _ => _ end] =>
      destruct b as [c|] eqn:E end; [|apply HR].
    intros [= ->]. apply bind_Ok in E as (l & _ & E).
    destruct l as [|x [|y [|z [|? ?]]]]; try done. by apply HR in E.
Qed.

Lemma ascii_range_check (P : N → bool) (c : N) :
  forallb P ascii_range = true → c < 128 → P c = true.
Proof.
  intros H Hc. rewrite forallb_forall in H. apply H.
  apply list_elem_of_In, list_elem_of_fmap. exists (N.to_nat c).
  split; [lia | apply elem_of_seq; lia].
Qed.

Lemma byte_range_check (P : N → bool) (n : N) :
  forallb P byte_range = true → n < 256 → P n = true.
Proof.
  intros H Hc. rewrite forallb_forall in H. apply H.
  apply list_elem_of_In, list_elem_of_fmap. exists (N.to_nat n).
  split; [lia | apply elem_of_seq; lia].
Qed.

Lemma is_hex_digit_ascii (c : N) : is_hex_digit c = true → c < 128.
Proof.
  unfold is_hex_digit. rewrite !orb_true_iff, !andb_true_iff, !N.leb_le. lia.
Qed.

Lemma hex_pair_table :
  forallb (λ c1, forallb (hex_pair_read c1) ascii_range) ascii_range = true.
Proof. vm_compute. reflexivity. Qed.

Lemma hex_pair_int (c1 c2 : N) :
  is_hex_digit c1 = true → is_hex_digit c2 = true →
  int [c1; c2] 16 = Ok (hex_value [c1; c2])
  ∧ (0 ≤ hex_value [c1; c2] ≤ 255)%Z.
Proof.
  intros H1 H2.
  pose proof (ascii_range_check _ c1 hex_pair_table (is_hex_digit_ascii _ H1)) as H.
  simpl in H.
  pose proof (ascii_range_check _ c2 H (is_hex_digit_ascii _ H2)) as H'.
  unfold hex_pair_read in H'. rewrite H1, H2 in H'. simpl in H'.
  destruct (int [c1; c2] 16) as [z|]; [|done].
  rewrite !andb_true_iff, Z.eqb_eq, !Z.leb_le in H'.
  destruct H' as [[-> ?] ?]. split; [done | lia].
Qed.

Lemma hex_form_inv (s : pystr) :
  hex_form s = true →
  ∃ c1 c2 c3 c4 c5 c6, s = [35; c1; c2; c3; c4; c5; c6]
    ∧ forallb is_hex_digit [c1; c2; c3; c4; c5; c6] = true.
Proof.
  destruct s as [|c0 ds]; [done|].
  assert (hex_form (c0 :: ds) =
          (c0 =? 35) && (bool_decide (length ds = 6%nat) && forallb is_hex_digit ds)) as ->.
  { destruct c0 as [|p]; [reflexivity|].
    do 7 (try (destruct p as [p|p|]; try reflexivity)). }
  rewrite !andb_true_iff, N.eqb_eq, bool_decide_eq_true.
  intros (-> & Hlen & Hds).
  destruct ds as [|c1 [|c2 [|c3 [|c4 [|c5 [|c6 [|? ?]]]]]]]; try done.
  by exists c1, c2, c3, c4, c5, c6.
Qed.

Lemma rgb_hex_pairs (c1 c2 c3 c4 c5 c6 : N) :
  forallb is_hex_digit [c1; c2; c3; c4; c5; c6] = true →
  _rgb (VStr [35; c1; c2; c3; c4; c5; c6]) =
  Ok (hex_value [c1; c2], hex_value [c3; c4], hex_value [c5; c6]).
Proof.
  intros H. simpl in H. rewrite !andb_true_iff in H.
  destruct H as (H1 & H2 & H3 & H4 & H5 & H6 & _).
  destruct (hex_pair_int c1 c2 H1 H2) as [E1 R1].
  destruct (hex_pair_int c3 c4 H3 H4) as [E2 R2].
  destruct (hex_pair_int c5 c6 H5 H6) as [E3 R3].
  unfold _rgb.
  change (startswith [35; c1; c2; c3; c4; c5; c6] (str "#")
          && bool_decide (length [35; c1; c2; c3; c4; c5; c6] = 7%nat)) with true.
  change (slice [35; c1; c2; c3; c4; c5; c6] 1 3) with [c1; c2].
  change (slice [35; c1; c2; c3; c4; c5; c6] 3 5) with [c3; c4].
  change (slice [35; c1; c2; c3; c4; c5; c6] 5 7) with [c5; c6].
  cbv iota. rewrite E1, E2, E3. simpl mbind.
  by apply RGBColor_in_range.
Qed.

(** X2. A marker followed by six hexadecimal digits, in either letter
    case, resolves to the three bytes the digit pairs stand for. *)
Theorem rgb_hex_value (s : pystr) :
  hex_form s = true →
  _rgb (VStr s) =
  Ok (hex_value (slice s 1 3), hex_value (slice s 3 5), hex_value (slice s 5 7)).
Proof.
  intros H.
  apply hex_form_inv in H as (c1 & c2 & c3 & c4 & c5 & c6 & -> & H).
  exact (rgb_hex_pairs c1 c2 c3 c4 c5 c6 H).
Qed.

(** X3. When the resolver raises, it raises [ValueError], and its input is
    a 7-character text that begins with the marker and is not a marker
    with six hexadecimal digits. *)
Theorem rgb_raises_only_on_marker (v : pyval) (e : exn) :
  _rgb v = Raise e →
  e = ValueError
  ∧ ∃ s, v = VStr s ∧ startswith s (str "#") = true ∧ length s = 7%nat
         ∧ hex_form s = false.
Proof.
  intros H.
  assert (∃ s, v = VStr s ∧
            startswith s (str "#") && bool_decide (length s = 7%nat) = true)
    as (s & -> & Hs).
  { destruct v as [| | | |s| |]; try done. exists s. split; [done|].
    destruct (startswith s (str "#") && bool_decide (length s = 7%nat)) eqn:E;
      [done|].
    destruct (rgb_returns (VStr s)) as [c Hc]; [by intros ? [= <-]|]. congruence. }
  split.
  - unfold _rgb in H. rewrite Hs in H.
    destruct (int (slice s 1 3) 16) as [x|e1] eqn:E1;
      [|apply int_Raise in E1; simpl in H; congruence].
    destruct (int (slice s 3 5) 16) as [y|e2] eqn:E2;
      [|apply int_Raise in E2; simpl in H; congruence].
    destruct (int (slice s 5 7) 16) as [z|e3] eqn:E3;
      [|apply int_Raise in E3; simpl in H; congruence].
    simpl in H. by apply RGBColor_Raise in H.
  - exists s. apply andb_true_iff in Hs as [? Hl].
    apply bool_decide_eq_true in Hl. split_and!; try done.
    destruct (hex_form s) eqn:E; [|done].
    apply hex_form_inv in E as (c1 & c2 & c3 & c4 & c5 & c6 & -> & E).
    apply rgb_hex_pairs in E. congruence.
Qed.

Lemma slice_to_last_prefixed (pre inner : pystr) :
  length pre = 4%nat →
  slice_to_last (pre ++ inner) 4 = take (length inner - 1) inner.
Proof.
  intros Hpre. unfold slice_to_last. rewrite length_app, Hpre.
  destruct inner as [|c inner].
  - rewrite (right_id_L [] (++)). simpl. apply drop_ge.
    rewrite length_take. lia.
  - replace (4 + length (c :: inner) - 1)%nat
      with (4 + (length (c :: inner) - 1))%nat by (simpl; lia).
    rewrite <- take_drop_commute, <- Hpre. by rewrite drop_app_length.
Qed.

(** X4. The letter case of the prefix "RGB(" does not matter: a text that
    begins with it in any mix of cases resolves as the same text with the
    prefix in capitals. *)
Theorem rgb_prefix_any_case (pre inner : pystr) :
  upper pre = str "RGB(" →
  _rgb (VStr (pre ++ inner)) = _rgb (VStr (str "RGB(" ++ inner)).
Proof.
  intros Hpre.
  destruct (rgb_prefix_not_marker pre inner Hpre) as (H1 & H2 & H3).
  destruct (rgb_prefix_not_marker (str "RGB(") inner eq_refl) as (H1' & H2' & H3').
  unfold _rgb. rewrite H1, H2, H1', H2'. cbn [andb].
  by rewrite (slice_to_last_prefixed pre inner H3),
             (slice_to_last_prefixed (str "RGB(") inner H3').
Qed.

Lemma split_no_sep (a : pystr) (sep : N) :
  mem sep a = false → split a sep = [a].
Proof.
  induction a as [|c a IH]; [done|]. unfold mem. simpl.
  rewrite orb_false_iff. intros [Hc Ha].
  rewrite N.eqb_sym, Hc. unfold mem in IH. by rewrite (IH Ha).
Qed.

Lemma split_at_sep (a rest : pystr) (sep : N) :
  mem sep a = false → split (a ++ sep :: rest) sep = a :: split rest sep.
Proof.
  induction a as [|c a IH]; simpl.
  - intros _. by rewrite N.eqb_refl.
  - unfold mem. simpl. rewrite orb_false_iff. intros [Hc Ha].
    rewrite N.eqb_sym, Hc. unfold mem in IH. by rewrite (IH Ha).
Qed.

Lemma component_table : forallb component_read byte_range = true.
Proof. vm_compute. reflexivity. Qed.

Lemma component_int (n : N) :
  n < 256 → mem 44 (dec n) = false ∧ int (strip (dec n)) 10 = Ok (Z.of_N n).
Proof.
  intros Hn. pose proof (byte_range_check _ n component_table Hn) as H.
  unfold component_read in H. apply andb_true_iff in H as [H1 H2].
  apply negb_true_iff in H1. split; [done|].
  destruct (int (strip (dec n)) 10) as [z|]; [|done].
  apply Z.eqb_eq in H2. by subst.
Qed.

(** X5. Three bytes written in decimal between "RGB(" (in any letter
    case), commas and a closing parenthesis resolve to those bytes. *)
Theorem rgb_components_read_back (pre : pystr) (r g b : N) :
  upper pre = str "RGB(" → r < 256 → g < 256 → b < 256 →
  _rgb (VStr (pre ++ (dec r ++ [44] ++ dec g ++ [44] ++ dec b) ++ [41]))
  = Ok (Z.of_N r, Z.of_N g, Z.of_N b).
Proof.
  intros Hpre Hr Hg Hb.
  destruct (component_int r Hr) as [Mr Ir].
  destruct (component_int g Hg) as [Mg Ig].
  destruct (component_int b Hb) as [Mb Ib].
  destruct (rgb_prefix_not_marker pre
              ((dec r ++ [44] ++ dec g ++ [44] ++ dec b) ++ [41]) Hpre)
    as (H1 & H2 & H3).
  unfold _rgb. rewrite H1, H2. cbn [andb].
  rewrite (slice_to_last_prefixed _ _ H3), length_app. simpl length.
  rewrite Nat.add_sub, take_app_length.
  change (dec r ++ [44] ++ dec g ++ [44] ++ dec b)
    with (dec r ++ 44 :: (dec g ++ 44 :: dec b)).
  rewrite (split_at_sep _ _ _ Mr), (split_at_sep _ _ _ Mg), (split_no_sep _ _ Mb).
  cbn [comprehension]. rewrite Ir, Ig, Ib. simpl.
  rewrite RGBColor_in_range by lia. reflexivity.
Qed.

(* ===================================================================== *)
(** ** Further properties of the line classifier                          *)
(* ===================================================================== *)

Lemma rstrip_by_last (P : N → bool) (s : pystr) (c : N) :
  last (rstrip_by P s) = Some c → P c = false.
Proof.
  induction s as [|c0 s IH]; [done|]. rewrite rstrip_by_cons.
  destruct (rstrip_by P s) as [|c1 r] eqn:E; cbn [is_nil andb].
  - destruct (P c0) eqn:E0; [done|]. by intros [= <-].
  - rewrite last_cons_cons. exact IH.
Qed.

Lemma rstrip_by_suffix (P : N → bool) (s : pystr) :
  ∃ suf, s = rstrip_by P s ++ suf ∧ forallb P suf = true.
Proof.
  induction s as [|c0 s (suf & IH & Hsuf)]; [by exists []|].
  rewrite rstrip_by_cons.
  destruct (is_nil (rstrip_by P s) && P c0) eqn:E.
  - apply andb_true_iff in E as [En E0].
    destruct (rstrip_by P s); [|done]. simpl in IH. subst s.
    exists (c0 :: suf). simpl. by rewrite E0, Hsuf.
  - exists suf. simpl. by rewrite <- IH.
Qed.

Lemma lstrip_by_head (P : N → bool) (s t : pystr) (c : N) :
  lstrip_by P s = c :: t → P c = false.
Proof.
  induction s as [|c0 s IH]; [done|]. simpl.
  destruct (P c0) eqn:E; [done|]. by intros [= <- <-].
Qed.

(** The text [strip] returns has no blank at either end. *)
Lemma strip_ends (s : pystr) (c : N) :
  head (strip s) = Some c ∨ last (strip s) = Some c → isspace c = false.
Proof.
  unfold strip. intros [H|H].
  - apply head_Some in H as [t H].
    apply rstrip_by_head in H as (t' & H & _).
    by apply lstrip_by_head in H.
  - by apply rstrip_by_last in H.
Qed.

Lemma normalize_within (line : pystr) :
  ∃ mark line_ends,
    line = mark ++ normalize line ++ line_ends
    ∧ (mark = [] ∨ mark = BOM)
    ∧ forallb (λ c, mem c [13; 10]) line_ends = true.
Proof.
  unfold normalize, rstrip.
  set (P := λ c, mem c [13; 10]).
  destruct (rstrip_by_suffix P line) as (suf & Hline & Hsuf).
  destruct (startswith (rstrip_by P line) BOM) eqn:E.
  - apply startswith_BOM in E as [t E].
    exists BOM, suf. rewrite E in *. split_and!; [done | by right | done].
  - exists [], suf. split_and!; [done | by left | done].
Qed.

(** X6. The normalized line does not end with a carriage return or a line
    feed, and it is the line without a run of carriage returns and line
    feeds at its end and without at most one byte-order mark at its
    start: nothing else is removed and nothing is added. *)
Theorem normalize_parts (line : pystr) :
  (∀ c, last (normalize line) = Some c → c ≠ 13 ∧ c ≠ 10)
  ∧ ∃ mark line_ends,
      line = mark ++ normalize line ++ line_ends
      ∧ (mark = [] ∨ mark = BOM)
      ∧ forallb (λ c, mem c [13; 10]) line_ends = true.
Proof.
  split; [|apply normalize_within].
  unfold normalize, rstrip.
  set (P := λ c, mem c [13; 10]).
  assert (∀ c, P c = false → c ≠ 13 ∧ c ≠ 10) as HP.
  { intros c Hc. split; intros ->; done. }
  destruct (startswith (rstrip_by P line) BOM) eqn:E.
  - apply startswith_BOM in E as [t E].
    intros c Hc. apply HP, (rstrip_by_last P line).
    rewrite E in *. change (slice_from (65279 :: t) 1) with t in Hc.
    destruct t; [done|]. by rewrite last_cons_cons.
  - intros c Hc. by apply HP, (rstrip_by_last P line).
Qed.

(** X7. No text begins with two of the eight heading prefixes: the order
    in which the heading rules are tried decides nothing. *)
Theorem heading_prefix_unique (text pref1 pref2 : pystr) (style1 style2 : string) :
  (pref1, style1) ∈ heading_prefixes → (pref2, style2) ∈ heading_prefixes →
  startswith text pref1 = true → startswith text pref2 = true →
  pref1 = pref2 ∧ style1 = style2.
Proof.
  intros Hin1 Hin2 H1 H2.
  pose proof (first_heading_at _ _ _ Hin1 H1) as E1.
  pose proof (first_heading_at _ _ _ Hin2 H2) as E2.
  rewrite E1 in E2. by injection E2 as -> ->.
Qed.

Lemma star_ends_elem (P : N → bool) (s s1 : pystr) :
  s1 ∈ star_ends P s → ∃ ds, s = ds ++ s1 ∧ forallb P ds = true.
Proof.
  induction s as [|c s IH]; simpl.
  - intros H. apply list_elem_of_singleton in H as ->. by exists [].
  - destruct (P c) eqn:E.
    + intros H. apply elem_of_app in H as [H|H].
      * destruct (IH H) as (ds & -> & Hds). exists (c :: ds).
        simpl. by rewrite E, Hds.
      * apply list_elem_of_singleton in H as ->. by exists [].
    + intros H. apply list_elem_of_singleton in H as ->. by exists [].
Qed.

Lemma ends_Class (P : N → bool) (s s1 : pystr) :
  s1 ∈ ends (Class P) s → ∃ c, s = c :: s1 ∧ P c = true.
Proof.
  destruct s as [|c s]; simpl; [by intros ?%elem_of_nil|].
  destruct (P c) eqn:E; [|by intros ?%elem_of_nil].
  intros H. apply list_elem_of_singleton in H as ->. by exists c.
Qed.

Lemma ends_punct_blank (s rest : pystr) :
  rest ∈ ends (Seq (Class is_punct) (Class isspace)) s →
  ∃ p w, s = p :: w :: rest ∧ is_punct p = true ∧ isspace w = true.
Proof.
  cbn [ends]. intros H. apply list_elem_of_bind in H as (s1 & H2 & H1).
  apply ends_Class in H1 as (p & -> & Hp).
  apply ends_Class in H2 as (w & -> & Hw). by exists p, w.
Qed.

Lemma span_run (P : N → bool) (a b : pystr) :
  forallb P a = true →
  match b with c :: _ => P c = false | [] => True end →
  span P (a ++ b) = (a, b).
Proof.
  intros Ha Hb. induction a as [|c a IH]; simpl in *.
  - destruct b as [|c b]; [done|]. simpl. by rewrite Hb.
  - apply andb_true_iff in Ha as [-> Ha]. by rewrite (IH Ha).
Qed.

Lemma re_match_token (text rest : pystr) :
  re_match numbered_re text = Some rest →
  ∃ token, numbering_token isspace token = true ∧ text = token ++ rest.
Proof.
  intros H. apply head_Some_elem_of in H. unfold numbered_re in H.
  cbn [ends] in H. apply elem_of_app in H as [H|H].
  - apply list_elem_of_bind in H as (s1 & H2 & H1).
    apply ends_punct_blank in H2 as (p & w & -> & Hp & Hw).
    destruct text as [|c s]; [by apply elem_of_nil in H1|].
    destruct (isdecimal c) eqn:Ec; [|by apply elem_of_nil in H1].
    apply star_ends_elem in H1 as (ds & -> & Hds).
    exists ((c :: ds) ++ [p; w]). split; [|by rewrite <- (assoc_L (++))].
    unfold numbering_token. rewrite span_run.
    + simpl. by rewrite Hp, Hw.
    + simpl. by rewrite Ec, Hds.
    + by apply is_punct_not_decimal.
  - apply list_elem_of_bind in H as (s1 & H2 & H1).
    apply ends_punct_blank in H2 as (p & w & -> & Hp & Hw).
    apply ends_Class in H1 as (c & -> & Hc).
    exists [c; p; w]. split; [|done].
    unfold numbering_token.
    pose proof (span_run isdecimal [] [c; p; w] eq_refl
                  (proj1 (is_ascii_letter_not_decimal c Hc))) as Hs.
    simpl app in Hs. by rewrite Hs, Hc, Hp, Hw.
Qed.

(** X8. What [numbered_re] accepts and what [re.sub] removes: the pattern
    matches a text exactly when the text begins with a numbering token
    (digits or one ASCII letter, a full stop or closing parenthesis, one
    blank), and the text after the match is the text after that token. *)
Theorem numbered_re_matches (text rest : pystr) :
  re_match numbered_re text = Some rest ↔
  ∃ token, numbering_token isspace token = true ∧ text = token ++ rest.
Proof.
  split.
  - apply re_match_token.
  - intros (token & Htok & ->).
    by destruct (numbering_token_detected isspace token rest (λ _ H, H) Htok).
Qed.

(** X9. At most one rule of the chain accepts a text: the heading rules,
    the numbered-list rule and the bullet rule exclude one another, so
    that the order of the chain decides no classification. *)
Theorem rule_chain_exclusive (text : pystr) :
  (length (filter (λ r, applies r text = true) rule_chain) ≤ 1)%nat.
Proof.
  unfold rule_chain.
  repeat match goal with
         | |- context [heading_rule _ (str ?s) :: _] =>
           lazymatch goal with
           | H : startswith text (str s) = false |- _ => fail
           | _ =>
             let E := fresh "E" in
             destruct (startswith text (str s)) eqn:E;
               [apply startswith_app in E as [rest ->]; vm_compute; lia|]
           end
         end.
  rewrite !filter_cons, filter_nil.
  repeat rewrite decide_False by (cbn [applies heading_rule]; congruence).
  destruct (decide (applies numbered_rule text = true)) as [Hn|];
    destruct (decide (applies bullet_rule text = true)) as [Hb|];
    simpl; try lia.
  exfalso. cbn [applies numbered_rule bullet_rule] in Hn, Hb.
  apply bool_decide_eq_true in Hn as [rest Hn].
  assert (∃ marker, marker ∈ [str "- "; str "* "; bullet_dot]
                    ∧ startswith text marker = true) as (marker & Hin & Hm).
  { rewrite !orb_true_iff in Hb. destruct Hb as [[Hb|Hb]|Hb].
    - exists (str "- "). split; [repeat constructor | done].
    - exists (str "* "). split; [repeat constructor | done].
    - exists bullet_dot. split; [repeat constructor | done]. }
  apply startswith_app in Hm as [rest' ->].
  destruct (bullet_detected marker rest' Hin) as (_ & Hnone & _).
  congruence.
Qed.

Lemma first_match_Some (text : pystr) (chain : list rule) (r : rule) :
  first_match text chain = Some r → r ∈ chain ∧ applies r text = true.
Proof.
  induction chain as [|r0 chain IH]; simpl; [done|].
  destruct (applies r0 text) eqn:E.
  - intros [= <-]. split; [by left | done].
  - intros H. destruct (IH H). split; [by right | done].
Qed.


(** X10. The style the classifier gives is one of seven names; it gives
    "Normal Bullet" only when the table has that key and "List Paragraph
    Bullet Points" only when the table has not. *)
Theorem style_of_names (rules : Rules) (line : pystr) :
  style_of rules line ∈ style_names
  ∧ (style_of rules line = "Normal Bullet" → is_Some (rules !! "Normal Bullet"))
  ∧ (style_of rules line = "List Paragraph Bullet Points" →
     rules !! "Normal Bullet" = None).
Proof.
  unfold style_of, classify.
  destruct (first_match (normalize line) rule_chain) as [r|] eqn:E.
  - apply first_match_Some in E as [Hin _]. unfold rule_chain in Hin.
    repeat (apply elem_of_cons in Hin as [-> | Hin];
            [split_and!; [unfold style_names; set_solver | done | done]|]).
    apply list_elem_of_singleton in Hin as ->.
    cbn [fst style_for bullet_rule]. rewrite bullet_style_choice.
    destruct (bool_decide (is_Some (rules !! "Normal Bullet"))) eqn:Eb.
    + apply bool_decide_eq_true in Eb.
      split_and!; [unfold style_names; set_solver | done | done].
    + apply bool_decide_eq_false in Eb.
      split_and!; [unfold style_names; set_solver | done |].
      intros _. by apply eq_None_not_Some.
  - split_and!; [unfold style_names; set_solver | done | done].
Qed.

(** X11. The text of a line that some rule accepts has no blank at either
    end; only the text of the default branch keeps the blanks it has. *)
Theorem text_of_stripped (rules : Rules) (line : pystr) (c : N) :
  first_match (normalize line) rule_chain ≠ None →
  head (text_of rules line) = Some c ∨ last (text_of rules line) = Some c →
  isspace c = false.
Proof.
  unfold text_of, classify.
  destruct (first_match (normalize line) rule_chain) as [r|] eqn:E; [|done].
  intros _. apply first_match_Some in E as [Hin _]. unfold rule_chain in Hin.
  repeat (apply elem_of_cons in Hin as [-> | Hin]; [apply strip_ends|]).
  by apply elem_of_nil in Hin.
Qed.

(* ===================================================================== *)
(** ** Further properties of the paragraph styler                         *)
(* ===================================================================== *)

Lemma runs_or_new_cons (p : Paragraph) : ∃ r rs, runs_or_new p = r :: rs.
Proof. unfold runs_or_new. destruct (runs p) as [|r rs]; simpl; eauto. Qed.

Lemma apply_paragraph_style_runs (p p' : Paragraph) (spec : Dict) :
  _apply_paragraph_style p spec = Ok p' →
  Forall2 (λ r r', style_run spec r = Ok r') (runs_or_new p) (runs p').
Proof. intros H. by apply apply_paragraph_style_Ok in H as (_ & _ & H). Qed.

Lemma styler_returns_applies (p p' : Paragraph) (spec : Dict) :
  _apply_paragraph_style p spec = Ok p' → record_applies spec = true.
Proof.
  intros H. pose proof (apply_paragraph_style_runs _ _ _ H) as HF.
  apply apply_paragraph_style_Ok in H as ((a & Ha & _) & _).
  unfold record_applies. rewrite Ha. simpl.
  destruct (spec !! "color") as [v|] eqn:Ec; [|done].
  destruct (runs_or_new_cons p) as (r & rs & Hr). rewrite Hr in HF.
  apply Forall2_cons_inv_l in HF as (r' & rs' & Hrun & _ & _).
  apply style_run_fields in Hrun as (_ & _ & _ & _ & _ & Hc).
  rewrite Ec in Hc. destruct Hc as (c & -> & _). done.
Qed.


Lemma style_format_idem (spec : Dict) (pf : ParagraphFormat) :
  style_format spec (style_format spec pf) = style_format spec pf.
Proof.
  unfold style_format.
  destruct (spec !! "line_spacing"), (spec !! "spacing_before_pt"),
    (spec !! "spacing_after_pt"), (spec !! "indent_left_cm"),
    (spec !! "indent_hanging_cm"), (get_truthy spec "keep_with_next"),
    (get_truthy spec "keep_lines_together"); reflexivity.
Qed.

Lemma style_run_idem (spec : Dict) (r r' : Run) :
  style_run spec r = Ok r' → style_run spec r' = Ok r'.
Proof.
  unfold style_run.
  destruct (spec !! "color") as [v|]; [destruct (_rgb v) as [c|]; [|done]|];
    simpl; intros [= <-]; simpl;
    destruct (spec !! "font_name"), (spec !! "font_size_pt"), (spec !! "bold"),
      (spec !! "italic"); reflexivity.
Qed.

Lemma comprehension_fixed {A} (f : A → result A) (l : list A) :
  Forall (λ x, f x = Ok x) l → comprehension f l = Ok l.
Proof.
  induction 1 as [|x l Hx _ IH]; [done|]. simpl. by rewrite Hx, IH.
Qed.

(** X13. The styler is idempotent: on the paragraph it has returned, the
    same record changes nothing more. *)
Theorem styler_idempotent (p p' : Paragraph) (spec : Dict) :
  _apply_paragraph_style p spec = Ok p' →
  _apply_paragraph_style p' spec = Ok p'.
Proof.
  intros H. pose proof (apply_paragraph_style_runs _ _ _ H) as HF.
  apply apply_paragraph_style_Ok in H as ((a & Ha & Hal) & Hpf & _).
  destruct (runs_or_new_cons p) as (r & rs & Hr). rewrite Hr in HF.
  destruct p' as [al' pf' rs']. simpl in *.
  unfold _apply_paragraph_style. rewrite Ha. simpl.
  assert (Forall (λ x, style_run spec x = Ok x) rs') as Hfix.
  { clear Hr. revert HF. generalize (r :: rs). intros l HF.
    induction HF as [|x y l l' Hxy _ IH]; constructor; [|done].
    by apply (style_run_idem _ x). }
  assert (is_nil rs' = false) as ->.
  { apply Forall2_cons_inv_l in HF as (? & ? & _ & _ & ->). done. }
  rewrite (comprehension_fixed _ _ Hfix). simpl.
  rewrite Hpf, style_format_idem, Hal. by destruct a.
Qed.

(** X14. The styler never changes the text of a paragraph, and it keeps
    the number of its runs, but for the one empty run it gives to a
    paragraph that has none. *)
Theorem styler_keeps_text (p p' : Paragraph) (spec : Dict) :
  _apply_paragraph_style p spec = Ok p' →
  paragraph_text p' = paragraph_text p
  ∧ r_text <$> runs p' = r_text <$> runs_or_new p
  ∧ length (runs p') = Nat.max 1 (length (runs p)).
Proof.
  intros H. pose proof (apply_paragraph_style_runs _ _ _ H) as HF.
  split; [by apply apply_paragraph_style_text in H|].
  split.
  - clear H. induction HF as [|r r' l l' Hr _ IH]; [done|].
    rewrite !fmap_cons, IH. f_equal. by apply style_run_text in Hr.
  - apply Forall2_length in HF. rewrite <- HF. unfold runs_or_new.
    destruct (runs p); simpl; lia.
Qed.



(** X16. What a call of the styler that returns has assigned: an
    attribute whose key the record does not have is as it was before; the
    hanging indent is the negated length; the two keep flags are set to
    true by a truthy value and otherwise left as they were, never
    cleared. *)
Theorem styler_frame (p p' : Paragraph) (spec : Dict) :
  _apply_paragraph_style p spec = Ok p' →
  let pf := paragraph_format p in
  let pf' := paragraph_format p' in
  (spec !! "alignment" = None → alignment p' = alignment p)
  ∧ (spec !! "line_spacing" = None → line_spacing pf' = line_spacing pf)
  ∧ (spec !! "spacing_before_pt" = None → space_before pf' = space_before pf)
  ∧ (spec !! "spacing_after_pt" = None → space_after pf' = space_after pf)
  ∧ (spec !! "indent_left_cm" = None → left_indent pf' = left_indent pf)
  ∧ (spec !! "indent_hanging_cm" = None → first_line_indent pf' = first_line_indent pf)
  ∧ (∀ v, spec !! "indent_hanging_cm" = Some v →
          first_line_indent pf' = Some (- Cm v)%Z)
  ∧ keep_with_next pf' =
      (if get_truthy spec "keep_with_next" then Some true else keep_with_next pf)
  ∧ keep_together pf' =
      (if get_truthy spec "keep_lines_together" then Some true else keep_together pf).
Proof.
  intros H pf pf'.
  apply apply_paragraph_style_Ok in H as ((a & Ha & Hal) & Hpf & _).
  destruct (style_format_fields spec pf) as (F1 & F2 & F3 & F4 & F5 & F6 & F7).
  subst pf'. rewrite Hpf. fold pf.
  split_and!.
  - intros E. rewrite E in Ha. injection Ha as <-. done.
  - intros E. by rewrite F1, E.
  - intros E. by rewrite F2, E.
  - intros E. by rewrite F3, E.
  - intros E. by rewrite F4, E.
  - intros E. by rewrite F5, E.
  - intros v E. by rewrite F5, E.
  - done.
  - done.
Qed.

(* ===================================================================== *)
(** ** Further properties of the document builder                         *)
(* ===================================================================== *)

Lemma styler_Raise (p : Paragraph) (spec : Dict) :
  record_applies spec = false → ∃ e, _apply_paragraph_style p spec = Raise e.
Proof.
  intros H. destruct (_apply_paragraph_style p spec) as [p'|e] eqn:E; [|by exists e].
  apply styler_returns_applies in E. congruence.
Qed.

Lemma detect_line_Ok (doc : Document) (line : pystr) (rules : Rules)
    (counters : gmap string Z) :
  line_applies rules line = true →
  ∃ p, _detect_and_style_line doc line rules counters
       = Ok (doc ++ [p], count_line rules counters line)
       ∧ paragraph_text p = text_of rules line.
Proof.
  intros H. rewrite classify_refines. unfold _add_styled_paragraph.
  destruct (record_applies_returns (record_of rules line)
              (add_paragraph (text_of rules line)) H) as [p Hp].
  unfold record_of in Hp. rewrite Hp. exists p. split; [done|].
  by rewrite (apply_paragraph_style_text _ _ _ Hp), add_paragraph_text.
Qed.

Lemma detect_line_Raise (doc : Document) (line : pystr) (rules : Rules)
    (counters : gmap string Z) :
  line_applies rules line = false →
  ∃ e, _detect_and_style_line doc line rules counters = Raise e.
Proof.
  intros H. rewrite classify_refines. unfold _add_styled_paragraph.
  destruct (styler_Raise (add_paragraph (text_of rules line))
              (record_of rules line) H) as [e He].
  unfold record_of in He. rewrite He. by exists e.
Qed.

Lemma build_loop_lines (rules : Rules) (lines : list pystr) (doc : Document)
    (counters : gmap string Z) :
  forallb (line_applies rules) lines = true →
  ∃ ps,
    for_each (λ '(out_doc, counters) line,
                _detect_and_style_line out_doc line rules counters)
             lines (doc, counters)
    = Ok (doc ++ ps, foldl (count_line rules) counters lines)
    ∧ paragraph_text <$> ps = text_of rules <$> lines.
Proof.
  revert doc counters.
  induction lines as [|line lines IH]; intros doc counters; simpl.
  - intros _. exists []. by rewrite (right_id_L [] (++)).
  - rewrite andb_true_iff. intros [Hl Hls].
    destruct (detect_line_Ok doc line rules counters Hl) as (p & -> & Hp).
    destruct (IH (doc ++ [p]) (count_line rules counters line) Hls)
      as (ps & Hps & Ht).
    exists (p :: ps). split.
    + rewrite <- (assoc_L (++)) in Hps. exact Hps.
    + by rewrite !fmap_cons, Hp, Ht.
Qed.

Lemma build_loop_Raise (rules : Rules) (lines : list pystr) (doc : Document)
    (counters : gmap string Z) :
  forallb (line_applies rules) lines = false →
  ∃ e, for_each (λ '(out_doc, counters) line,
                   _detect_and_style_line out_doc line rules counters)
                lines (doc, counters) = Raise e.
Proof.
  revert doc counters.
  induction lines as [|line lines IH]; intros doc counters; simpl; [done|].
  destruct (line_applies rules line) eqn:Hl; simpl.
  - intros Hls.
    destruct (detect_line_Ok doc line rules counters Hl) as (p & -> & _).
    apply IH, Hls.
  - intros _.
    destruct (detect_line_Raise doc line rules counters Hl) as [e ->].
    by exists e.
Qed.



Lemma for_each_app {S A} (body : S → A → result S) (l1 l2 : list A) (st : S) :
  for_each body (l1 ++ l2) st = for_each body l1 st ≫= for_each body l2.
Proof.
  revert st. induction l1 as [|x l1 IH]; intros st; simpl; [done|].
  destruct (body st x) as [st'|e]; simpl; [apply IH | done].
Qed.

Lemma build_loop_Ok (rules : Rules) (lines : list pystr) (doc doc' : Document)
    (counters counters' : gmap string Z) :
  for_each (λ '(out_doc, counters) line,
              _detect_and_style_line out_doc line rules counters)
           lines (doc, counters) = Ok (doc', counters') →
  ∃ ps, doc' = doc ++ ps ∧ length ps = length lines
        ∧ counters' = foldl (count_line rules) counters lines.
Proof.
  intros H.
  destruct (forallb (line_applies rules) lines) eqn:E.
  - destruct (build_loop_lines rules lines doc counters E) as (ps & Hps & Ht).
    rewrite Hps in H. injection H as <- <-. exists ps. split_and!; [done| |done].
    apply (f_equal length) in Ht. by rewrite !length_fmap in Ht.
  - destruct (build_loop_Raise rules lines doc counters E) as [e He]. congruence.
Qed.

(** X18. The builder works line by line. Of a draft that goes on after
    some lines it returns, if it returns, the document of those lines
    followed by one paragraph for each further line, and counters none of
    which is below that of the shorter draft; and a draft on whose first
    lines it raises it never gets through, whatever follows. *)
Theorem format_doc_extends (lines more : list pystr) (style_map : option Rules) :
  (∀ doc counters,
     format_doc (lines ++ more) style_map = Ok (doc, counters) →
     ∃ doc1 counters1 ps,
       format_doc lines style_map = Ok (doc1, counters1)
       ∧ doc = doc1 ++ ps ∧ length ps = length more
       ∧ ∀ style_name, (default 0 (counters1 !! style_name)
                        ≤ default 0 (counters !! style_name))%Z)
  ∧ (∀ e, format_doc lines style_map = Raise e →
          format_doc (lines ++ more) style_map = Raise e).
Proof.
  unfold format_doc. set (rules := default DEFAULT_STYLE_MAP style_map).
  rewrite for_each_app. split.
  - intros doc counters H. apply bind_Ok in H as ([doc1 counters1] & H1 & H2).
    apply build_loop_Ok in H2 as (ps & -> & Hlen & ->).
    exists doc1, counters1, ps. split_and!; [done..|].
    intros style_name. rewrite count_lines_lookup. lia.
  - intros e ->. done.
Qed.

(* ===================================================================== *)
(** ** The cleaned text is a part of the line                             *)
(* ===================================================================== *)

Lemma lstrip_by_prefix (P : N → bool) (s : pystr) :
  ∃ pre, s = pre ++ lstrip_by P s.
Proof.
  induction s as [|c s [pre IH]]; [by exists []|]. simpl.
  destruct (P c); [|by exists []].
  exists (c :: pre). simpl. by rewrite <- IH.
Qed.

Lemma part_trans (a b c pre1 suf1 pre2 suf2 : pystr) :
  a = pre1 ++ b ++ suf1 → b = pre2 ++ c ++ suf2 →
  a = (pre1 ++ pre2) ++ c ++ (suf2 ++ suf1).
Proof. intros -> ->. by rewrite <- !(assoc_L (++)). Qed.

Lemma strip_part (s : pystr) : ∃ pre suf, s = pre ++ strip s ++ suf.
Proof.
  unfold strip. destruct (lstrip_by_prefix isspace s) as [pre Hpre].
  destruct (rstrip_by_suffix isspace (lstrip_by isspace s)) as (suf & Hsuf & _).
  exists pre, suf. by rewrite <- Hsuf.
Qed.

Lemma strip_after_part (text pre0 rest : pystr) :
  text = pre0 ++ rest → ∃ pre suf, text = pre ++ strip rest ++ suf.
Proof.
  intros ->. destruct (strip_part rest) as (pre & suf & H).
  exists (pre0 ++ pre), suf. rewrite <- (assoc_L (++)). by rewrite <- H.
Qed.

Lemma re_sub_empty_part (text : pystr) :
  ∃ pre, text = pre ++ re_sub_empty numbered_re text.
Proof.
  unfold re_sub_empty.
  destruct (re_match numbered_re text) as [rest|] eqn:E; [|by exists []].
  apply re_match_token in E as (token & _ & ->). by exists token.
Qed.

Lemma cleaned_part (r : rule) (text : pystr) :
  r ∈ rule_chain → ∃ pre suf, text = pre ++ cleaned r text ++ suf.
Proof.
  intros Hin. unfold rule_chain in Hin.
  repeat (apply elem_of_cons in Hin as [-> | Hin];
          [cbn [cleaned heading_rule]; eapply strip_after_part;
           unfold slice_from; symmetry; apply take_drop|]).
  apply elem_of_cons in Hin as [-> | Hin].
  - cbn [cleaned numbered_rule].
    destruct (re_sub_empty_part text) as [pre H].
    exact (strip_after_part text pre _ H).
  - apply list_elem_of_singleton in Hin as ->. cbn [cleaned bullet_rule].
    eapply strip_after_part. unfold slice_from. symmetry. apply take_drop.
Qed.

Lemma text_of_within (rules : Rules) (line : pystr) :
  ∃ before after, line = before ++ text_of rules line ++ after.
Proof.
  destruct (normalize_within line) as (mark & line_ends & Hn & _).
  assert (∃ pre suf, normalize line = pre ++ text_of rules line ++ suf)
    as (pre & suf & Ht).
  { unfold text_of, classify.
    destruct (first_match (normalize line) rule_chain) as [r|] eqn:E.
    - apply first_match_Some in E as [Hin _]. by apply cleaned_part.
    - exists [], []. by rewrite (right_id_L [] (++)). }
  exists (mark ++ pre), (suf ++ line_ends).
  exact (part_trans _ _ _ _ _ _ _ Hn Ht).
Qed.

(** X19. The classifier only removes text at the two ends of a line: the
    cleaned text is a slice [line[i:j]] of the raw line, with nothing
    inserted, replaced or reordered. *)
Theorem text_of_part (rules : Rules) (line : pystr) :
  ∃ i j, (i ≤ j ≤ length line)%nat ∧ text_of rules line = slice line i j.
Proof.
  destruct (text_of_within rules line) as (before & after & H).
  revert H. generalize (text_of rules line). intros t ->.
  exists (length before), (length before + length t)%nat.
  split.
  - rewrite !length_app. lia.
  - unfold slice.
    rewrite (assoc_L (++)), take_app_length'; [|by rewrite length_app].
    by rewrite drop_app_length.
Qed.

(* ===================================================================== *)
(** ** The lines of a text draft                                          *)
(* ===================================================================== *)

Lemma splitlines_cons (c : N) (s : pystr) :
  splitlines (c :: s) =
  if is_linebreak c
  then [] :: splitlines (if (c =? 13) && startswith s [10] then drop 1 s else s)
  else match splitlines s with
       | l :: ls => (c :: l) :: ls
       | [] => [[c]]
       end.
Proof.
  simpl. destruct (is_linebreak c); [|done].
  destruct (c =? 13); [|done].
  destruct s as [|c' s]; [done|].
  destruct c' as [|p]; [done|].
  do 5 (try (destruct p as [p|p|]; try reflexivity)).
Qed.

Lemma splitlines_no_break_bounded (n : nat) (s : pystr) :
  (length s ≤ n)%nat →
  Forall (λ l, forallb (λ c, negb (is_linebreak c)) l = true) (splitlines s).
Proof.
  revert s. induction n as [|n IH]; intros s Hs.
  - destruct s; [constructor | simpl in Hs; lia].
  - destruct s as [|c s]; [constructor|]. simpl in Hs.
    rewrite splitlines_cons. destruct (is_linebreak c) eqn:E.
    + constructor; [done|]. apply IH.
      destruct ((c =? 13) && startswith s [10]); [rewrite length_drop|]; lia.
    + assert (Forall (λ l, forallb (λ c, negb (is_linebreak c)) l = true)
                (splitlines s)) as H by (apply IH; lia).
      destruct (splitlines s) as [|l ls].
      * constructor; [|done]. simpl. by rewrite E.
      * apply Forall_cons in H as [Hl Hls].
        constructor; [|done]. simpl. by rewrite E, Hl.
Qed.

Lemma rstrip_no_line_end (s : pystr) :
  forallb (λ c, negb (is_linebreak c)) s = true → rstrip s [13; 10] = s.
Proof.
  unfold rstrip. induction s as [|c s IH]; [done|]. simpl forallb.
  rewrite andb_true_iff, negb_true_iff. intros [Hc Hs].
  rewrite rstrip_by_cons, (IH Hs).
  assert (mem c [13; 10] = false) as ->; [|by rewrite andb_false_r].
  unfold mem. simpl. rewrite !orb_false_iff, !N.eqb_neq.
  split_and!; [by intros -> | by intros -> | done].
Qed.

(** X20. A line that [splitlines] gives has no line boundary in it: no
    line feed, carriage return, vertical tab, form feed, separator of
    files, groups or records, next line, or line or paragraph separator.
    Stripping the line ends of such a line changes nothing, so that its
    normalization removes a leading byte-order mark and nothing else. *)
Theorem splitlines_lines (text line : pystr) :
  line ∈ splitlines text →
  forallb (λ c, negb (is_linebreak c)) line = true
  ∧ rstrip line [13; 10] = line
  ∧ normalize line = if startswith line BOM then slice_from line 1 else line.
Proof.
  intros Hin.
  pose proof (splitlines_no_break_bounded (length text) text (le_n _)) as H.
  rewrite Forall_forall in H. specialize (H line Hin).
  pose proof (rstrip_no_line_end line H) as Hr.
  split_and!; [done | done |]. unfold normalize. by rewrite Hr.
Qed.

Lemma forallb_part (P : N → bool) (a pre b suf : pystr) :
  a = pre ++ b ++ suf → forallb P a = true → forallb P b = true.
Proof.
  intros ->. rewrite !forallb_app, !andb_true_iff. tauto.
Qed.

(** X21. Of a text draft cut into lines by [splitlines], the builder, when
    it returns, gives one paragraph for each line, and no paragraph has a
    line boundary in its text. *)
Theorem text_draft_paragraphs (text : pystr) (style_map : option Rules)
    (doc : Document) (counters : gmap string Z) :
  format_doc (splitlines text) style_map = Ok (doc, counters) →
  length doc = length (splitlines text)
  ∧ Forall (λ p, forallb (λ c, negb (is_linebreak c)) (paragraph_text p) = true) doc.
Proof.
  unfold format_doc. set (rules := default DEFAULT_STYLE_MAP style_map).
  intros H.
  destruct (forallb (line_applies rules) (splitlines text)) eqn:E.
  - destruct (build_loop_lines rules (splitlines text) [] ∅ E) as (ps & Hps & Ht).
    rewrite Hps in H. injection H as <- <-. split.
    + apply (f_equal length) in Ht. by rewrite !length_fmap in Ht.
    + assert (Forall (λ t, forallb (λ c, negb (is_linebreak c)) t = true)
                (paragraph_text <$> ps)) as HF; [|by apply Forall_fmap in HF].
      rewrite Ht. apply Forall_fmap, Forall_forall. intros line Hin. simpl.
      pose proof (splitlines_no_break_bounded (length text) text (le_n _)) as Hl.
      rewrite Forall_forall in Hl. specialize (Hl line Hin).
      destruct (text_of_within rules line) as (before & after & Hp).
      exact (forallb_part _ _ _ _ _ Hp Hl).
  - destruct (build_loop_Raise rules (splitlines text) [] ∅ E) as [e He].
    congruence.
Qed.

(* ===================================================================== *)
(** ** What the styler ignores, and the runs of a built paragraph         *)
(* ===================================================================== *)

Lemma apply_paragraph_style_no_alignment (p : Paragraph) (spec : Dict) :
  align_lookup (spec !! "alignment") = Ok None →
  _apply_paragraph_style p spec = _apply_paragraph_style p (delete "alignment" spec).
Proof.
  intros Ha.
  assert (Forall (λ k, delete "alignment" spec !! k = spec !! k)
            (drop 1 known_keys)) as Hl.
  { apply Forall_forall. intros k Hin. apply lookup_delete_ne.
    intros <-. vm_compute in Hin.
    repeat (apply elem_of_cons in Hin as [Hin|Hin]; [discriminate Hin|]).
    by apply elem_of_nil in Hin. }
  unfold known_keys in Hl. simpl drop in Hl.
  unfold _apply_paragraph_style, style_format, style_run, get_truthy.
  rewrite Ha, lookup_delete_eq.
  repeat (apply Forall_cons in Hl as [-> Hl]).
  reflexivity.
Qed.

(** X22. The styler ignores what it does not know. A key it does not read
    changes nothing, whatever its value; an alignment that is a text other
    than the four names, or a number, a truth value or null, counts as no
    alignment at all. *)
Theorem styler_ignores (p : Paragraph) (spec : Dict) (key : string) (v : pyval) :
  (key ∉ known_keys →
   _apply_paragraph_style p (<[key := v]> spec) = _apply_paragraph_style p spec)
  ∧ (∀ a, spec !! "alignment" = Some (VStr a) → align_map a = None →
       _apply_paragraph_style p spec
       = _apply_paragraph_style p (delete "alignment" spec))
  ∧ (∀ x, spec !! "alignment" = Some x →
       match x with VStr _ | VList _ | VDict _ => False | _ => True end →
       _apply_paragraph_style p spec
       = _apply_paragraph_style p (delete "alignment" spec)).
Proof.
  split_and!.
  - apply apply_paragraph_style_unknown_key.
  - intros a Ha Hm. apply apply_paragraph_style_no_alignment.
    rewrite Ha. simpl. by rewrite Hm.
  - intros x Hx Hk. apply apply_paragraph_style_no_alignment.
    rewrite Hx. by destruct x.
Qed.



Lemma add_styled_paragraph_run (doc doc' : Document) (text : pystr)
    (style_name : string) (rules : Rules) (counters counters' : gmap string Z) :
  _add_styled_paragraph doc text style_name rules counters = Ok (doc', counters') →
  ∃ p r, doc' = doc ++ [p] ∧ runs p = [r] ∧ r_text r = text.
Proof.
  unfold _add_styled_paragraph. intros H.
  apply bind_Ok in H as (p & Hp & H). injection H as <- _.
  apply apply_paragraph_style_runs in Hp.
  assert (runs_or_new (add_paragraph text) = [new_run text]) as E
    by (by destruct text).
  rewrite E in Hp.
  apply Forall2_cons_inv_l in Hp as (r & rs & Hr & Hnil & Hruns).
  apply Forall2_nil_inv_l in Hnil as ->.
  exists p, r. split_and!; [done | done |].
  by apply style_run_text in Hr.
Qed.

Lemma build_loop_runs (rules : Rules) (lines : list pystr) (doc doc' : Document)
    (counters counters' : gmap string Z) :
  for_each (λ '(out_doc, counters) line,
              _detect_and_style_line out_doc line rules counters)
           lines (doc, counters) = Ok (doc', counters') →
  ∃ ps, doc' = doc ++ ps
        ∧ Forall2 (λ line p, ∃ r, runs p = [r] ∧ r_text r = text_of rules line)
                  lines ps.
Proof.
  revert doc counters.
  induction lines as [|line lines IH]; intros doc counters; simpl.
  - intros [= <- _]. exists []. by rewrite (right_id_L [] (++)).
  - intros H. apply bind_Ok in H as ([doc1 counters1] & H1 & H2).
    rewrite classify_refines in H1.
    apply add_styled_paragraph_run in H1 as (p & r & -> & Hr & Ht).
    apply IH in H2 as (ps & -> & HF).
    exists (p :: ps). split; [by rewrite <- (assoc_L (++))|].
    constructor; [by exists r | done].
Qed.

(** X24. Every paragraph the builder gives has exactly one run, and that
    run holds the whole cleaned text of the paragraph's line, the empty
    text included: the run attributes of the style always have a run to
    go to. *)
Theorem built_paragraphs_one_run (lines : list pystr) (style_map : option Rules)
    (doc : Document) (counters : gmap string Z) :
  format_doc lines style_map = Ok (doc, counters) →
  Forall2 (λ line p, ∃ r, runs p = [r]
                          ∧ r_text r = text_of (default DEFAULT_STYLE_MAP style_map) line)
          lines doc.
Proof.
  unfold format_doc. intros H.
  apply build_loop_runs in H as (ps & -> & HF). exact HF.
Qed.

End Engine.

(* ===================================================================== *)
(** ** Worked inputs                                                      *)
(* ===================================================================== *)

(** The draft of the specification's end-to-end example (8), on the
    built-in table. *)
Example end_to_end :
  ∃ doc,
    format_doc sample_decimal sample_Pt sample_Cm
      [str "# Title"; str "Intro text."; str "- point one"; str "1. first item"] None
    = Ok (doc, {[ "Heading 1" := 1%Z; "Normal" := 2%Z; "Normal Bullet" := 1%Z ]})
    ∧ paragraph_text <$> doc
      = [str "Title"; str "Intro text."; str "point one"; str "first item"].
Proof. eexists. split; vm_compute; reflexivity. Qed.

(** A digit outside ASCII opens a numbering token as well. *)
Example arabic_indic_token :
  numbering_token sample_decimal isspace [1635; 46; 32] = true
  ∧ text_of sample_decimal DEFAULT_STYLE_MAP ([1635; 46; 32] ++ str "item") = str "item".
Proof. split; reflexivity. Qed.

(** The two colour forms on the texts of the specification and on the
    lower-case text that has neither. *)
Example colour_forms_examples :
  hex_form (str "#0052A3") = true ∧ rgb_form (str "RGB(1,95,95)") = true
  ∧ hex_form (str "Text 1") = false ∧ rgb_form (str "Text 1") = false
  ∧ hex_form (str "RGB(bad)") = false ∧ rgb_form (str "RGB(bad)") = false
  ∧ hex_form (str "rgb(1,2,3)") = false ∧ rgb_form (str "rgb(1,2,3)") = false
  ∧ _rgb sample_decimal (VStr (str "rgb(1,2,3)")) = Ok (1, 2, 3)%Z.
Proof. repeat split; reflexivity. Qed.

(** The two passes over a line that begins with two byte-order marks. *)
Example normalize_two_marks :
  normalize (BOM ++ BOM ++ str "x") = BOM ++ str "x"
  ∧ normalize (normalize (BOM ++ BOM ++ str "x")) = str "x".
Proof. split; reflexivity. Qed.

Lemma C1_rule_chain_witness :
  first_match (normalize (str "Intro text.")) (rule_chain sample_decimal) = None
  ∧ style_of sample_decimal DEFAULT_STYLE_MAP (str "Intro text.") = "Normal"
  ∧ text_of sample_decimal DEFAULT_STYLE_MAP (str "Intro text.") = normalize (str "Intro text.").
Proof.
  split; [reflexivity|].
  destruct (C1_rule_chain sample_decimal sample_Pt sample_Cm
              [] (str "Intro text.") DEFAULT_STYLE_MAP ∅) as (_ & H & _).
  apply H. reflexivity.
Defined.

Lemma C4_heading_prefix_witness :
  let line := str "## Scope " ++ [13; 10] in
  startswith (normalize line) (str "## ") = true
  ∧ first_heading (normalize line) heading_markers = Some ("Heading 2", str "## ")
  ∧ _detect_and_style_line sample_decimal sample_Pt sample_Cm [] line DEFAULT_STYLE_MAP ∅
    = _add_styled_paragraph sample_decimal sample_Pt sample_Cm []
        (strip (slice_from (normalize line) (length (str "## "))))
        "Heading 2" DEFAULT_STYLE_MAP ∅.
Proof.
  intros line. split; [reflexivity|].
  apply (C4_heading_prefix sample_decimal sample_Pt sample_Cm
           [] line DEFAULT_STYLE_MAP ∅ (str "## ") "Heading 2").
  - unfold heading_prefixes. repeat constructor.
  - reflexivity.
Defined.

Lemma C5_numbered_token_witness :
  let line := str "12) second item" in
  numbering_token sample_decimal is_space (str "12) ") = true
  ∧ first_heading (normalize line) heading_markers = None
  ∧ _detect_and_style_line sample_decimal sample_Pt sample_Cm [] line DEFAULT_STYLE_MAP ∅
    = _add_styled_paragraph sample_decimal sample_Pt sample_Cm []
        (strip (str "second item")) "Normal" DEFAULT_STYLE_MAP ∅.
Proof.
  intros line. split; [reflexivity|].
  apply (C5_numbered_token sample_decimal sample_Pt sample_Cm
           [] line DEFAULT_STYLE_MAP ∅ (str "12) ") (str "second item"));
    reflexivity.
Defined.

Lemma C6_bullet_witness :
  let line := str "* point" in
  startswith (normalize line) (str "* ") = true
  ∧ first_heading (normalize line) heading_markers = None
  ∧ re_match (numbered_re sample_decimal) (normalize line) = None
  ∧ _detect_and_style_line sample_decimal sample_Pt sample_Cm [] line ∅ ∅
    = _add_styled_paragraph sample_decimal sample_Pt sample_Cm []
        (strip (slice_from (normalize line) 2))
        (if bool_decide (is_Some ((∅ : Rules) !! "Normal Bullet"))
         then "Normal Bullet" else "List Paragraph Bullet Points") ∅ ∅.
Proof.
  intros line. split; [reflexivity|].
  apply (C6_bullet sample_decimal sample_Pt sample_Cm [] line ∅ ∅ (str "* ")).
  - repeat constructor.
  - reflexivity.
Defined.

Lemma C7_normalize_idempotent_witness :
  let s := BOM ++ str "Title" ++ [13; 10] in
  startswith s (BOM ++ BOM) = false ∧ normalize (normalize s) = normalize s.
Proof.
  intros s. split; [reflexivity|].
  apply (C7_normalize_idempotent s). reflexivity.
Defined.

(** C7 does not hold of a line that begins with two byte-order marks: the
    first pass removes one of them, the second pass the other. *)
Lemma C7_counterexample : ¬ (∀ s : pystr, normalize (normalize s) = normalize s).
Proof.
  intros H. specialize (H (BOM ++ BOM ++ str "x")).
  vm_compute in H. discriminate H.
Qed.

Lemma C8_colour_forms_witness :
  _rgb sample_decimal (VStr (str "Accent 2")) = Ok (0, 0, 0)%Z
  ∧ components sample_decimal (str "1,2") = Raise ValueError
  ∧ _rgb sample_decimal (VStr (str "rgb(" ++ str "1,2" ++ [41])) = Ok (0, 0, 0)%Z.
Proof.
  destruct (C8_colour_forms sample_decimal) as (_ & _ & _ & _ & H1 & H2).
  split; [apply H1; reflexivity|].
  split; [reflexivity|].
  apply (H2 (str "rgb(") (str "1,2") ValueError); reflexivity.
Defined.

(** C8 does not hold of "rgb(1,2,3)": the text has neither of the two
    forms, the prefix of the second being written in capitals, and it
    resolves to (1,2,3), as [_rgb] compares the prefix after [upper()]. *)
Lemma C8_counterexample :
  ¬ (∀ (unicode_decimal : N → option N) (s : pystr),
       hex_form s = false → rgb_form s = false →
       _rgb unicode_decimal (VStr s) = Ok (0, 0, 0)%Z).
Proof.
  intros H.
  specialize (H sample_decimal (str "rgb(1,2,3)") eq_refl eq_refl).
  vm_compute in H. discriminate H.
Qed.

Lemma C10_numbered_any_blank_witness :
  let line := str "7)" ++ [9] ++ str "item" in
  numbering_token sample_decimal isspace (str "7)" ++ [9]) = true
  ∧ is_space 9 = false
  ∧ first_heading (normalize line) heading_markers = None
  ∧ _detect_and_style_line sample_decimal sample_Pt sample_Cm [] line DEFAULT_STYLE_MAP ∅
    = _add_styled_paragraph sample_decimal sample_Pt sample_Cm []
        (strip (str "item")) "Normal" DEFAULT_STYLE_MAP ∅.
Proof.
  intros line. split; [reflexivity|]. split; [reflexivity|].
  apply (C10_numbered_any_blank sample_decimal sample_Pt sample_Cm
           [] line DEFAULT_STYLE_MAP ∅ (str "7)" ++ [9]) (str "item"));
    reflexivity.
Defined.

(* ===================================================================== *)
(** ** Worked inputs for the further properties                           *)
(* ===================================================================== *)

Lemma rgb_in_range_witness :
  _rgb sample_decimal (VStr (str "#0052A3")) = Ok (0, 82, 163)%Z
  ∧ (0 ≤ 0 ≤ 255 ∧ 0 ≤ 82 ≤ 255 ∧ 0 ≤ 163 ≤ 255)%Z.
Proof.
  split; [reflexivity|].
  apply (rgb_in_range sample_decimal (VStr (str "#0052A3"))). reflexivity.
Defined.

Lemma rgb_hex_value_witness :
  hex_form (str "#fFa0B1") = true
  ∧ _rgb sample_decimal (VStr (str "#fFa0B1")) = Ok (255, 160, 177)%Z.
Proof.
  split; [reflexivity|].
  exact (rgb_hex_value sample_decimal (str "#fFa0B1") eq_refl).
Defined.

Lemma rgb_raises_only_on_marker_witness :
  _rgb sample_decimal (VStr (str "#12345G")) = Raise ValueError
  ∧ ∃ s, VStr (str "#12345G") = VStr s ∧ startswith s (str "#") = true
         ∧ length s = 7%nat ∧ hex_form s = false.
Proof.
  split; [reflexivity|].
  apply (rgb_raises_only_on_marker sample_decimal
           (VStr (str "#12345G")) ValueError).
  reflexivity.
Defined.

Lemma rgb_prefix_any_case_witness :
  upper (str "rGb(") = str "RGB("
  ∧ _rgb sample_decimal (VStr (str "rGb(" ++ str "1,2,3)"))
    = _rgb sample_decimal (VStr (str "RGB(" ++ str "1,2,3)")).
Proof.
  split; [reflexivity|].
  apply (rgb_prefix_any_case sample_decimal (str "rGb(") (str "1,2,3)")).
  reflexivity.
Defined.

Lemma rgb_components_read_back_witness :
  _rgb sample_decimal (VStr (str "rgb(1,95,255)")) = Ok (1, 95, 255)%Z.
Proof.
  apply (rgb_components_read_back sample_decimal (str "rgb(") 1 95 255);
    reflexivity.
Defined.

Lemma normalize_parts_witness :
  let line := BOM ++ str "Title" ++ [13; 10; 10] in
  last (normalize line) = Some 101 ∧ 101 ≠ 13 ∧ 101 ≠ 10.
Proof.
  intros line. split; [reflexivity|].
  destruct (normalize_parts line) as [H _]. apply H. reflexivity.
Defined.

Lemma heading_prefix_unique_witness :
  startswith (str "## Scope") (str "## ") = true
  ∧ str "## " = str "## " ∧ "Heading 2" = "Heading 2".
Proof.
  split; [reflexivity|].
  apply (heading_prefix_unique (str "## Scope") (str "## ") (str "## ")
           "Heading 2" "Heading 2").
  - unfold heading_prefixes. repeat constructor.
  - unfold heading_prefixes. repeat constructor.
  - reflexivity.
  - reflexivity.
Defined.

Lemma numbered_re_matches_witness :
  re_match (numbered_re sample_decimal) (str "a) first") = Some (str "first")
  ∧ ∃ token, numbering_token sample_decimal isspace token = true
             ∧ str "a) first" = token ++ str "first".
Proof.
  split; [reflexivity|].
  apply (numbered_re_matches sample_decimal (str "a) first") (str "first")).
  reflexivity.
Defined.

Lemma style_of_names_witness :
  style_of sample_decimal ∅ (str "- point") = "List Paragraph Bullet Points"
  ∧ (∅ : Rules) !! "Normal Bullet" = None.
Proof.
  split; [reflexivity|].
  destruct (style_of_names sample_decimal ∅ (str "- point")) as (_ & _ & H).
  apply H. reflexivity.
Defined.

Lemma text_of_stripped_witness :
  let line := str "#   Title  " in
  head (text_of sample_decimal DEFAULT_STYLE_MAP line) = Some 84
  ∧ isspace 84 = false.
Proof.
  intros line. split; [reflexivity|].
  apply (text_of_stripped sample_decimal DEFAULT_STYLE_MAP line 84).
  - intros H. vm_compute in H. discriminate H.
  - left. reflexivity.
Defined.


Lemma styler_idempotent_witness :
  let spec : Dict := {[ "bold" := VBool true ]} in
  let p' := mkParagraph None no_format
              [mkRun (str "x") (mkFont None None (Some (VBool true)) None None)] in
  _apply_paragraph_style sample_decimal sample_Pt sample_Cm
    (add_paragraph (str "x")) spec = Ok p'
  ∧ _apply_paragraph_style sample_decimal sample_Pt sample_Cm p' spec = Ok p'.
Proof.
  intros spec p'. split; [reflexivity|].
  apply (styler_idempotent sample_decimal sample_Pt sample_Cm
           (add_paragraph (str "x")) p' spec).
  reflexivity.
Defined.

Lemma styler_keeps_text_witness :
  let spec : Dict := {[ "italic" := VBool true ]} in
  let p' := mkParagraph None no_format
              [mkRun [] (mkFont None None None (Some (VBool true)) None)] in
  _apply_paragraph_style sample_decimal sample_Pt sample_Cm
    (add_paragraph []) spec = Ok p'
  ∧ paragraph_text p' = paragraph_text (add_paragraph [])
  ∧ length (runs p') = Nat.max 1 (length (runs (add_paragraph []))).
Proof.
  intros spec p'. split; [reflexivity|].
  destruct (styler_keeps_text sample_decimal sample_Pt sample_Cm
              (add_paragraph []) p' spec eq_refl) as (H1 & _ & H3).
  split; [exact H1 | exact H3].
Defined.


Lemma styler_frame_witness :
  let spec : Dict := {[ "indent_hanging_cm" := VInt 1 ]} in
  let p' := mkParagraph None
              (mkParagraphFormat None None None None (Some (-360000)%Z) None None)
              [mkRun (str "x") no_font] in
  _apply_paragraph_style sample_decimal sample_Pt sample_Cm
    (add_paragraph (str "x")) spec = Ok p'
  ∧ first_line_indent (paragraph_format p') = Some (- sample_Cm (VInt 1))%Z
  ∧ left_indent (paragraph_format p') = None.
Proof.
  intros spec p'. split; [reflexivity|].
  destruct (styler_frame sample_decimal sample_Pt sample_Cm
              (add_paragraph (str "x")) p' spec eq_refl)
    as (_ & _ & _ & _ & H5 & _ & H7 & _).
  split; [apply H7; reflexivity | apply H5; reflexivity].
Defined.


Lemma format_doc_extends_witness :
  format_doc sample_decimal sample_Pt sample_Cm [str "x"] (Some bad_rules)
  = Raise ValueError
  ∧ format_doc sample_decimal sample_Pt sample_Cm
      ([str "x"] ++ [str "# Title"]) (Some bad_rules) = Raise ValueError.
Proof.
  split; [reflexivity|].
  destruct (format_doc_extends sample_decimal sample_Pt sample_Cm
              [str "x"] [str "# Title"] (Some bad_rules)) as [_ H].
  apply H. reflexivity.
Defined.

Lemma splitlines_lines_witness :
  let text := str "one" ++ [13; 10] ++ BOM ++ str "two" ++ [10] in
  splitlines text = [str "one"; BOM ++ str "two"]
  ∧ rstrip (BOM ++ str "two") [13; 10] = BOM ++ str "two"
  ∧ normalize (BOM ++ str "two") = str "two".
Proof.
  intros text. split; [reflexivity|].
  destruct (splitlines_lines text (BOM ++ str "two")) as (_ & H2 & H3).
  - vm_compute. repeat constructor.
  - split; [exact H2 | exact H3].
Defined.

Lemma text_draft_paragraphs_witness :
  ∃ doc counters,
    format_doc sample_decimal sample_Pt sample_Cm
      (splitlines (str "# Title" ++ [13; 10] ++ str "Intro")) None
    = Ok (doc, counters)
    ∧ length doc = 2%nat.
Proof.
  eexists _, _. split; [vm_compute; reflexivity|].
  refine (proj1 (text_draft_paragraphs sample_decimal sample_Pt sample_Cm
                   (str "# Title" ++ [13; 10] ++ str "Intro") None _ _ _)).
  vm_compute. reflexivity.
Defined.

Lemma styler_ignores_witness :
  let spec : Dict := {[ "bold" := VBool true ]} in
  _apply_paragraph_style sample_decimal sample_Pt sample_Cm
    (add_paragraph (str "x")) (<["based_on" := VNone]> spec)
  = _apply_paragraph_style sample_decimal sample_Pt sample_Cm
      (add_paragraph (str "x")) spec.
Proof.
  intros spec.
  destruct (styler_ignores sample_decimal sample_Pt sample_Cm
              (add_paragraph (str "x")) spec "based_on" VNone) as [H _].
  apply H. intros Hin. vm_compute in Hin.
  repeat (apply elem_of_cons in Hin as [Hin|Hin]; [discriminate Hin|]).
  by apply elem_of_nil in Hin.
Defined.

Lemma built_paragraphs_one_run_witness :
  ∃ doc counters,
    format_doc sample_decimal sample_Pt sample_Cm [str "# "; str "x"] None
    = Ok (doc, counters)
    ∧ Forall2 (λ line p, ∃ r, runs p = [r]
                              ∧ r_text r = text_of sample_decimal DEFAULT_STYLE_MAP line)
              [str "# "; str "x"] doc.
Proof.
  eexists _, _. split; [vm_compute; reflexivity|].
  refine (built_paragraphs_one_run sample_decimal sample_Pt sample_Cm
            [str "# "; str "x"] None _ _ _).
  vm_compute. reflexivity.
Defined.
